(** * AuthManager: the launcher's account authentication module

    A shallow embedding of [app/assets/js/authmanager.js].

    - JavaScript numbers that hold instants (milliseconds) and lifetimes
      (seconds) are integers far below 2^53; they are modelled as [Z].
    - An [async function] is a computation over the world (the account
      store, the clock and the record of calls made on collaborators) that
      settles as [Resolved] or [Rejected].  Inside its body, [throw] and
      [return Promise.reject(...)] are kept apart: only the first is seen
      by a [catch].
    - The collaborators that the module requires from other packages
      (helios-core's [MicrosoftAuth], azuriom-auth's [AuthClient]) and from
      files that are not part of this development ([./configmanager],
      [./ipcconstants]) are parameters.  The functions of [ConfigManager]
      are taken to return normally.
    - Identifiers that the module uses without declaring or requiring them
      resolve in a scope that is a parameter too.
    - The clock stands still while one operation runs; two operations may
      run at different readings of it.
    - Calls on [log] and [console] do not take part in the data flow and
      are left out. *)

From Stdlib Require Import ZArith Lia.
From stdpp Require Import base option list strings gmap.

Local Open Scope Z_scope.

(** ** Values of the collaborating packages *)

(** [RestResponseStatus] of helios-core/common. *)
Inductive RestResponseStatus := SUCCESS | ERROR.

(** [MicrosoftErrorCode] of helios-core/microsoft.  The module names one
    member, [UNKNOWN]; every other code travels through it opaquely. *)
Inductive MicrosoftErrorCode := UNKNOWN | ProviderCode (n : N).

(** The members of [MojangErrorCode] that the module names. *)
Inductive MojangErrorCode := ERROR_INVALID_CREDENTIALS | MOJANG_UNKNOWN.

(** What a promise can be rejected with, or a statement can throw. *)
Inductive JsError :=
| microsoftErrorDisplayable (c : MicrosoftErrorCode)
| mojangErrorDisplayable (c : MojangErrorCode)
| ReferenceError (identifier : string)
| TypeError (property : string)
| CollaboratorFault (what : string).

(** What a validator resolves to: [true], [false], or nothing at all when
    the body runs off its end. *)
Inductive JsValue := JsBool (b : bool) | JsUndefined.

Definition status_eqb (a b : RestResponseStatus) : bool :=
  match a, b with
  | SUCCESS, SUCCESS | ERROR, ERROR => true
  | _, _ => false
  end.

(** Response of a [MicrosoftAuth] endpoint. *)
Record MicrosoftResponse (A : Type) := {
  responseStatus : RestResponseStatus;
  data : option A;
  microsoftErrorCode : MicrosoftErrorCode
}.
Arguments responseStatus {A} _.
Arguments data {A} _.
Arguments microsoftErrorCode {A} _.

(** Response of a [MojangRestAPI] endpoint. *)
Record MojangResponse (A : Type) := {
  mj_responseStatus : RestResponseStatus;
  mj_data : option A
}.
Arguments mj_responseStatus {A} _.
Arguments mj_data {A} _.

(** Payload of the OAuth token endpoint. *)
Record AccessTokenData := {
  access_token : string;
  refresh_token : string;
  expires_in : Z
}.

(** Payload of the game-service token endpoint. *)
Record MCTokenData := {
  mc_access_token : string;
  mc_expires_in : Z
}.

(** Payload of the profile endpoint. *)
Record MCProfile := {
  profile_id : string;
  profile_name : string
}.

(** The Xbox Live and XSTS payloads are only handed from one endpoint to
    the next. *)
Record XblData := { xbl_token : string }.
Record XstsData := { xsts_token : string }.

(** Result object of [AuthClient.login]. *)
Record LoginResult := {
  status : string;
  requires2fa : bool;
  lr_uuid : string;
  lr_accessToken : string;
  lr_username : string
}.

(** Session payload of [MojangRestAPI.refresh]. *)
Record Session := { session_accessToken : string }.

(** ** Account records *)

Record MicrosoftState := {
  ms_access_token : string;
  ms_refresh_token : string;
  expires_at : Z
}.

Record AuthAccount := {
  type : string;
  uuid : string;
  accessToken : string;
  username : string;
  displayName : string;
  expiresAt : option Z;
  microsoft : option MicrosoftState
}.

(** ** The three entry modes *)

Inductive AUTH_MODE := FULL | MS_REFRESH | MC_REFRESH.

Definition mode_eqb (a b : AUTH_MODE) : bool :=
  match a, b with
  | FULL, FULL | MS_REFRESH, MS_REFRESH | MC_REFRESH, MC_REFRESH => true
  | _, _ => false
  end.

(** Object returned by [fullMicrosoftAuthFlow]. *)
Record FlowResult := {
  fr_accessToken : option AccessTokenData;
  fr_accessTokenRaw : string;
  fr_xbl : option XblData;
  fr_xsts : option XstsData;
  fr_mcToken : option MCTokenData;
  fr_mcProfile : option MCProfile
}.

(** ** calculateExpiryDate *)

Definition calculateExpiryDate (nowMs epiresInS : Z) : Z :=
  nowMs + ((epiresInS - 10) * 1000).

(** The margin of the expiry policy, in seconds, and the conversion that
    brings a lifetime in seconds to the milliseconds of an instant. *)
Definition marginSeconds : Z := 10.
Definition secondsToMs (s : Z) : Z := s * 1000.

(** [now >= expiry] on a field that may be missing: a comparison with
    [undefined] is false. *)
Definition js_ge (now : Z) (expiry : option Z) : bool :=
  match expiry with
  | Some e => e <=? now
  | None => false
  end.

(** ** Calls on collaborators *)

(** Every call that leaves the module is recorded, in the order in which it
    is made.  [EvFlow] records an entry into [fullMicrosoftAuthFlow]. *)
Inductive Event :=
| EvLogin (username password : string) (twoFactorCode : option string)
| EvFlow (entryCode : string) (authMode : AUTH_MODE)
| EvGetAccessToken (entryCode : string) (refresh : bool) (clientId : string)
| EvGetXBLToken (accessTokenRaw : string)
| EvGetXSTSToken (xbl : option XblData)
| EvGetMCAccessToken (xsts : option XstsData)
| EvGetMCProfile (mcAccessToken : string)
| EvValidate (accessToken : string) (clientToken : option string)
| EvRefresh (accessToken : string) (clientToken : option string)
| EvAddGalaxyQuestAuthAccount (uuid accessToken username displayName : string)
| EvSetClientToken (clientToken : string)
| EvAddMicrosoftAuthAccount (uuid accessToken name : string) (mcExpires : Z)
    (msAccessToken msRefreshToken : string) (msExpires : Z)
| EvUpdateMicrosoftAuthAccount (uuid accessToken msAccessToken msRefreshToken : string)
    (msExpires mcExpires : Z)
| EvUpdateMojangAuthAccount (uuid accessToken : string)
| EvSave.

(** Calls that go over the network. *)
Definition is_network (e : Event) : bool :=
  match e with
  | EvLogin _ _ _ | EvGetAccessToken _ _ _ | EvGetXBLToken _
  | EvGetXSTSToken _ | EvGetMCAccessToken _ | EvGetMCProfile _
  | EvValidate _ _ | EvRefresh _ _ => true
  | _ => false
  end.

(** Calls that write the account store or persist it. *)
Definition is_store_write (e : Event) : bool :=
  match e with
  | EvAddGalaxyQuestAuthAccount _ _ _ _ | EvSetClientToken _
  | EvAddMicrosoftAuthAccount _ _ _ _ _ _ _
  | EvUpdateMicrosoftAuthAccount _ _ _ _ _ _
  | EvUpdateMojangAuthAccount _ _ | EvSave => true
  | _ => false
  end.

Definition is_flow (e : Event) : bool :=
  match e with EvFlow _ _ => true | _ => false end.

Definition is_oauth (e : Event) : bool :=
  match e with EvGetAccessToken _ _ _ => true | _ => false end.

(** ** Settled promises and the bodies of async functions *)

Inductive Settled (A : Type) :=
| Resolved (a : A)
| Rejected (e : JsError).
Arguments Resolved {A} a.
Arguments Rejected {A} e.

(** How a block of statements completes: normally, by [throw], or by
    [return Promise.reject(e)].  The last one leaves the function at once
    and is not seen by an enclosing [catch]. *)
Inductive Completion (A : Type) :=
| Normal (a : A)
| Throw (e : JsError)
| ReturnReject (e : JsError).
Arguments Normal {A} a.
Arguments Throw {A} e.
Arguments ReturnReject {A} e.

Record World (Config : Type) := {
  config : Config;
  clock : Z;
  trace : list Event
}.
Arguments config {Config} _.
Arguments clock {Config} _.
Arguments trace {Config} _.

Definition M (Config A : Type) : Type :=
  World Config -> Completion A * World Config.

Definition Async (Config A : Type) : Type :=
  World Config -> Settled A * World Config.

Section Monad.
Context {Config : Type}.

Definition ret {A} (a : A) : M Config A := fun w => (Normal a, w).

Definition bind {A B} (m : M Config A) (k : A -> M Config B) : M Config B :=
  fun w =>
    match m w with
    | (Normal a, w') => k a w'
    | (Throw e, w') => (Throw e, w')
    | (ReturnReject e, w') => (ReturnReject e, w')
    end.

Definition throw {A} (e : JsError) : M Config A := fun w => (Throw e, w).

Definition return_reject {A} (e : JsError) : M Config A :=
  fun w => (ReturnReject e, w).

(** [try { body } catch (err) { handler }] *)
Definition try_catch {A} (body : M Config A) (handler : JsError -> M Config A)
  : M Config A :=
  fun w =>
    match body w with
    | (Throw e, w') => handler e w'
    | r => r
    end.

(** The promise of an [async function] with the given body. *)
Definition async {A} (body : M Config A) : Async Config A :=
  fun w =>
    match body w with
    | (Normal a, w') => (Resolved a, w')
    | (Throw e, w') => (Rejected e, w')
    | (ReturnReject e, w') => (Rejected e, w')
    end.

(** [await p]: the value of a resolved promise, a throw of the reason of a
    rejected one. *)
Definition await {A} (p : Async Config A) : M Config A :=
  fun w =>
    match p w with
    | (Resolved a, w') => (Normal a, w')
    | (Rejected e, w') => (Throw e, w')
    end.

Definition emit (e : Event) : M Config unit :=
  fun w => (Normal tt, {| config := config w; clock := clock w;
                          trace := trace w ++ [e] |}).

(** [await] on a call to an endpoint of a collaborator. *)
Definition call {A} (e : Event) (reply : Settled A) : M Config A :=
  bind (emit e) (fun _ =>
    match reply with
    | Resolved a => ret a
    | Rejected err => throw err
    end).

(** [new Date().getTime()] *)
Definition getTime : M Config Z := fun w => (Normal (clock w), w).

(** Reading a property of a value that may be [null] or [undefined]. *)
Definition deref {A} (property : string) (o : option A) : M Config A :=
  match o with
  | Some a => ret a
  | None => throw (TypeError property)
  end.

(** A getter of the account store. *)
Definition store_get {A} (f : Config -> A) : M Config A :=
  fun w => (Normal (f (config w)), w).

(** A call that changes the account store. *)
Definition store_call {A} (e : Event) (f : Config -> Config * A) : M Config A :=
  fun w =>
    let (c, a) := f (config w) in
    (Normal a, {| config := c; clock := clock w; trace := trace w ++ [e] |}).

Definition store_put (e : Event) (f : Config -> Config) : M Config unit :=
  store_call e (fun c => (f c, tt)).
End Monad.

Declare Scope js_scope.
Delimit Scope js_scope with js.
Notation "'do' x <- m ; k" := (bind m (fun x => k))
  (at level 10, x name, m at level 100, k at level 200) : js_scope.
Notation "'run' m ; k" := (bind m (fun _ => k))
  (at level 10, m at level 100, k at level 200) : js_scope.

(** ** Collaborators *)

(** [MicrosoftAuth] of helios-core/microsoft: one function per endpoint.
    Each returns a promise; a promise that rejects is a transport fault
    that the endpoint wrapper let through. *)
Record MicrosoftAuthApi := {
  getAccessToken : string -> bool -> string -> Settled (MicrosoftResponse AccessTokenData);
  getXBLToken : string -> Settled (MicrosoftResponse XblData);
  getXSTSToken : option XblData -> Settled (MicrosoftResponse XstsData);
  getMCAccessToken : option XstsData -> Settled (MicrosoftResponse MCTokenData);
  getMCProfile : string -> Settled (MicrosoftResponse MCProfile)
}.

(** [new AuthClient('https://galaxyquest.fr')] of azuriom-auth.  The third
    argument of [login] is absent on the first call. *)
Record AuthClientApi := {
  login : string -> string -> option string -> Settled LoginResult
}.

(** [MojangRestAPI] of helios-core/mojang. *)
Record MojangRestApi := {
  validate : string -> option string -> Settled (MojangResponse bool);
  refresh : string -> option string -> Settled (MojangResponse Session)
}.

(** The functions of [./configmanager] that the module calls, over the
    configuration they keep. *)
Record ConfigManagerApi (Config : Type) := {
  getSelectedAccount : Config -> option AuthAccount;
  getClientToken : Config -> option string;
  setClientToken : string -> Config -> Config;
  addGalaxyQuestAuthAccount :
    string -> string -> string -> string -> Config -> Config * AuthAccount;
  addMicrosoftAuthAccount :
    string -> string -> string -> Z -> string -> string -> Z ->
    Config -> Config * AuthAccount;
  updateMicrosoftAuthAccount :
    string -> string -> string -> string -> Z -> Z -> Config -> Config;
  updateMojangAuthAccount : string -> string -> Config -> Config;
  save : Config -> Config
}.
Arguments getSelectedAccount {Config} _ _.
Arguments getClientToken {Config} _ _.
Arguments setClientToken {Config} _ _ _.
Arguments addGalaxyQuestAuthAccount {Config} _ _ _ _ _ _.
Arguments addMicrosoftAuthAccount {Config} _ _ _ _ _ _ _ _ _.
Arguments updateMicrosoftAuthAccount {Config} _ _ _ _ _ _ _ _.
Arguments updateMojangAuthAccount {Config} _ _ _ _.
Arguments save {Config} _ _.

(** The module uses four identifiers that it neither declares nor
    requires: [MojangRestAPI], [mojangErrorDisplayable], [MojangErrorCode]
    and [validateSelectedGalaxyquestAccount].  They resolve in the scope
    around the module; where that scope has no binding, the reference
    throws a [ReferenceError]. *)
Record Scope (Config : Type) := {
  scope_MojangRestAPI : option MojangRestApi;
  scope_mojangErrorDisplayable : bool;
  scope_MojangErrorCode : bool;
  scope_validateSelectedGalaxyquestAccount : option (Async Config JsValue)
}.
Arguments scope_MojangRestAPI {Config} _.
Arguments scope_mojangErrorDisplayable {Config} _.
Arguments scope_MojangErrorCode {Config} _.
Arguments scope_validateSelectedGalaxyquestAccount {Config} _.

(** The scope of the module as the file has it: none of the four is
    bound. *)
Definition module_scope (Config : Type) : Scope Config :=
  {| scope_MojangRestAPI := None;
     scope_mojangErrorDisplayable := false;
     scope_MojangErrorCode := false;
     scope_validateSelectedGalaxyquestAccount := None |}.

(** ** The functions of the module *)

Section AuthManager.
Context {Config : Type}.
Variable ConfigManager : ConfigManagerApi Config.
Variable MicrosoftAuth : MicrosoftAuthApi.
Variable AuthClient : AuthClientApi.
Variable AZURE_CLIENT_ID : string.
Variable scope : Scope Config.

Local Open Scope js_scope.

(** [mojangErrorDisplayable(MojangErrorCode.c)]: the callee is resolved
    first, then the argument. *)
Definition eval_mojangErrorDisplayable (c : MojangErrorCode) : M Config JsError :=
  if scope_mojangErrorDisplayable scope then
    if scope_MojangErrorCode scope then ret (mojangErrorDisplayable c)
    else throw (ReferenceError "MojangErrorCode")
  else throw (ReferenceError "mojangErrorDisplayable").

(** The second-factor code is the constant that the source marks as a
    placeholder ("Replace with the 2FA user temporary code"). *)
Definition addGalaxyQuestAccount (username password : string)
  : Async Config AuthAccount :=
  async (
    try_catch (
      do result <- call (EvLogin username password None)
                        (login AuthClient username password None);
      do result <-
        (if String.eqb (status result) "pending" && requires2fa result then
           let twoFactorCode := EmptyString in
           call (EvLogin username password (Some twoFactorCode))
                (login AuthClient username password (Some twoFactorCode))
         else ret result);
      if negb (String.eqb (status result) "success") then
        do displayable <- eval_mojangErrorDisplayable ERROR_INVALID_CREDENTIALS;
        return_reject displayable
      else
        do account <- store_call
          (EvAddGalaxyQuestAuthAccount (lr_uuid result) (lr_accessToken result)
             (lr_username result) (lr_username result))
          (addGalaxyQuestAuthAccount ConfigManager (lr_uuid result)
             (lr_accessToken result) (lr_username result) (lr_username result));
        do clientToken <- store_get (getClientToken ConfigManager);
        run (match clientToken with
             | None => store_put (EvSetClientToken (lr_accessToken result))
                         (setClientToken ConfigManager (lr_accessToken result))
             | Some _ => ret tt
             end);
        run store_put EvSave (save ConfigManager);
        ret account)
      (fun err =>
         do displayable <- eval_mojangErrorDisplayable MOJANG_UNKNOWN;
         return_reject displayable)).

(** A response whose status is [ERROR] ends the flow with the rejection
    built from its error code; any other response is handed on. *)
Definition check {A} (response : MicrosoftResponse A)
  : M Config (MicrosoftResponse A) :=
  if status_eqb (responseStatus response) ERROR then
    return_reject (microsoftErrorDisplayable (microsoftErrorCode response))
  else ret response.

Definition fullMicrosoftAuthFlow (entryCode : string) (authMode : AUTH_MODE)
  : Async Config FlowResult :=
  async (
    run emit (EvFlow entryCode authMode);
    try_catch (
      do tokens <-
        (if negb (mode_eqb authMode MC_REFRESH) then
           do accessTokenResponse <-
             call (EvGetAccessToken entryCode (mode_eqb authMode MS_REFRESH)
                     AZURE_CLIENT_ID)
                  (getAccessToken MicrosoftAuth entryCode
                     (mode_eqb authMode MS_REFRESH) AZURE_CLIENT_ID);
           do accessTokenResponse <- check accessTokenResponse;
           let accessToken := data accessTokenResponse in
           do token <- deref "access_token" accessToken;
           ret (accessToken, access_token token)
         else ret (None, entryCode));
      let accessToken := fst tokens in
      let accessTokenRaw := snd tokens in
      do xblResponse <- call (EvGetXBLToken accessTokenRaw)
                             (getXBLToken MicrosoftAuth accessTokenRaw);
      do xblResponse <- check xblResponse;
      do xstsResonse <- call (EvGetXSTSToken (data xblResponse))
                             (getXSTSToken MicrosoftAuth (data xblResponse));
      do xstsResonse <- check xstsResonse;
      do mcTokenResponse <- call (EvGetMCAccessToken (data xstsResonse))
                                 (getMCAccessToken MicrosoftAuth (data xstsResonse));
      do mcTokenResponse <- check mcTokenResponse;
      do mcToken <- deref "access_token" (data mcTokenResponse);
      do mcProfileResponse <- call (EvGetMCProfile (mc_access_token mcToken))
                                   (getMCProfile MicrosoftAuth (mc_access_token mcToken));
      do mcProfileResponse <- check mcProfileResponse;
      ret {| fr_accessToken := accessToken;
             fr_accessTokenRaw := accessTokenRaw;
             fr_xbl := data xblResponse;
             fr_xsts := data xstsResonse;
             fr_mcToken := data mcTokenResponse;
             fr_mcProfile := data mcProfileResponse |})
      (fun err => return_reject (microsoftErrorDisplayable UNKNOWN))).

Definition addMicrosoftAccount (authCode : string) : Async Config AuthAccount :=
  async (
    do fullAuth <- await (fullMicrosoftAuthFlow authCode FULL);
    do now <- getTime;
    do mcProfile <- deref "id" (fr_mcProfile fullAuth);
    do mcToken <- deref "access_token" (fr_mcToken fullAuth);
    do accessToken <- deref "access_token" (fr_accessToken fullAuth);
    do account <- store_call
      (EvAddMicrosoftAuthAccount (profile_id mcProfile) (mc_access_token mcToken)
         (profile_name mcProfile)
         (calculateExpiryDate now (mc_expires_in mcToken))
         (access_token accessToken) (refresh_token accessToken)
         (calculateExpiryDate now (expires_in accessToken)))
      (addMicrosoftAuthAccount ConfigManager
         (profile_id mcProfile) (mc_access_token mcToken)
         (profile_name mcProfile)
         (calculateExpiryDate now (mc_expires_in mcToken))
         (access_token accessToken) (refresh_token accessToken)
         (calculateExpiryDate now (expires_in accessToken)));
    run store_put EvSave (save ConfigManager);
    ret account).

Definition validateSelectedMojangAccount : Async Config JsValue :=
  async (
    do selected <- store_get (getSelectedAccount ConfigManager);
    do api <- (match scope_MojangRestAPI scope with
               | Some api => ret api
               | None => throw (ReferenceError "MojangRestAPI")
               end);
    do current <- deref "accessToken" selected;
    do clientToken <- store_get (getClientToken ConfigManager);
    do response <- call (EvValidate (accessToken current) clientToken)
                        (validate api (accessToken current) clientToken);
    if status_eqb (mj_responseStatus response) SUCCESS then
      let isValid := mj_data response in
      if negb (bool_decide (isValid = Some true)) then
        do clientToken <- store_get (getClientToken ConfigManager);
        do refreshResponse <- call (EvRefresh (accessToken current) clientToken)
                                   (refresh api (accessToken current) clientToken);
        if status_eqb (mj_responseStatus refreshResponse) SUCCESS then
          do session <- deref "accessToken" (mj_data refreshResponse);
          run store_put
            (EvUpdateMojangAuthAccount (uuid current) (session_accessToken session))
            (updateMojangAuthAccount ConfigManager (uuid current)
               (session_accessToken session));
          run store_put EvSave (save ConfigManager);
          ret (JsBool true)
        else ret (JsBool false)
      else ret (JsBool true)
    else ret JsUndefined).

Definition validateSelectedMicrosoftAccount : Async Config JsValue :=
  async (
    do selected <- store_get (getSelectedAccount ConfigManager);
    do now <- getTime;
    do current <- deref "expiresAt" selected;
    let mcExpiresAt := expiresAt current in
    let mcExpired := js_ge now mcExpiresAt in
    if negb mcExpired then ret (JsBool true)
    else
      do ms <- deref "expires_at" (microsoft current);
      let msExpiresAt := expires_at ms in
      let msExpired := msExpiresAt <=? now in
      if msExpired then
        try_catch (
          do res <- await (fullMicrosoftAuthFlow (ms_refresh_token ms) MS_REFRESH);
          do mcToken <- deref "access_token" (fr_mcToken res);
          do accessToken <- deref "access_token" (fr_accessToken res);
          run store_put
            (EvUpdateMicrosoftAuthAccount (uuid current) (mc_access_token mcToken)
               (access_token accessToken) (refresh_token accessToken)
               (calculateExpiryDate now (expires_in accessToken))
               (calculateExpiryDate now (mc_expires_in mcToken)))
            (updateMicrosoftAuthAccount ConfigManager
               (uuid current) (mc_access_token mcToken)
               (access_token accessToken) (refresh_token accessToken)
               (calculateExpiryDate now (expires_in accessToken))
               (calculateExpiryDate now (mc_expires_in mcToken)));
          run store_put EvSave (save ConfigManager);
          ret (JsBool true))
          (fun err => ret (JsBool false))
      else
        try_catch (
          do res <- await (fullMicrosoftAuthFlow (ms_access_token ms) MC_REFRESH);
          do mcToken <- deref "access_token" (fr_mcToken res);
          run store_put
            (EvUpdateMicrosoftAuthAccount (uuid current) (mc_access_token mcToken)
               (ms_access_token ms) (ms_refresh_token ms) (expires_at ms)
               (calculateExpiryDate now (mc_expires_in mcToken)))
            (updateMicrosoftAuthAccount ConfigManager
               (uuid current) (mc_access_token mcToken)
               (ms_access_token ms) (ms_refresh_token ms) (expires_at ms)
               (calculateExpiryDate now (mc_expires_in mcToken)));
          run store_put EvSave (save ConfigManager);
          ret (JsBool true))
          (fun err => ret (JsBool false))).

Definition validateSelected : Async Config JsValue :=
  async (
    do selected <- store_get (getSelectedAccount ConfigManager);
    do current <- deref "type" selected;
    if String.eqb (type current) "microsoft" then
      await validateSelectedMicrosoftAccount
    else
      match scope_validateSelectedGalaxyquestAccount scope with
      | Some validateSelectedGalaxyquestAccount =>
          await validateSelectedGalaxyquestAccount
      | None => throw (ReferenceError "validateSelectedGalaxyquestAccount")
      end).
End AuthManager.

(** The world after some more calls were recorded; store and clock are as
    they were. *)
Definition append_events {Config} (w : World Config) (evs : list Event)
  : World Config :=
  {| config := config w; clock := clock w; trace := trace w ++ evs |}.

(** The world at a later reading of the clock. *)
Definition at_time {Config} (t : Z) (w : World Config) : World Config :=
  {| config := config w; clock := t; trace := trace w |}.

(** ** The chain as a pipeline of tagged results

    This is the chain as the design describes it: every stage yields a
    tagged success or error, normalized where the provider is contacted,
    and the pipeline stops at the first error and forwards it.  It is
    compared with [fullMicrosoftAuthFlow] below. *)

Definition Stage (A : Type) : Type := (JsError + A) * list Event.

Definition stage_ok {A} (a : A) : Stage A := (inr a, []).

Definition stage_error {A} (e : JsError) : Stage A := (inl e, []).

Definition and_then {A B} (s : Stage A) (k : A -> Stage B) : Stage B :=
  match s with
  | (inl e, evs) => (inl e, evs)
  | (inr a, evs) => (fst (k a), evs ++ snd (k a))
  end.

(** One exchange is one round trip.  A provider-reported error keeps its
    code; a transport fault is [UNKNOWN]. *)
Definition exchange {A} (e : Event) (reply : Settled (MicrosoftResponse A))
  : Stage (option A) :=
  (match reply with
   | Resolved r =>
       if status_eqb (responseStatus r) ERROR
       then inl (microsoftErrorDisplayable (microsoftErrorCode r))
       else inr (data r)
   | Rejected _ => inl (microsoftErrorDisplayable UNKNOWN)
   end, [e]).

(** A payload that the next stage reads must be there; a response without
    it is malformed, which is [UNKNOWN]. *)
Definition payload {A} (o : option A) : Stage A :=
  match o with
  | Some a => stage_ok a
  | None => stage_error (microsoftErrorDisplayable UNKNOWN)
  end.

Definition oauth_stage (api : MicrosoftAuthApi) (clientId entryCode : string)
    (authMode : AUTH_MODE) : Stage (option AccessTokenData * string) :=
  match authMode with
  | MC_REFRESH => stage_ok (None, entryCode)
  | _ =>
      and_then (exchange (EvGetAccessToken entryCode (mode_eqb authMode MS_REFRESH) clientId)
                  (getAccessToken api entryCode (mode_eqb authMode MS_REFRESH) clientId))
        (fun pair =>
      and_then (payload pair) (fun token =>
      stage_ok (Some token, access_token token)))
  end.

Definition chain (api : MicrosoftAuthApi) (clientId entryCode : string)
    (authMode : AUTH_MODE) : Stage FlowResult :=
  and_then (oauth_stage api clientId entryCode authMode) (fun oauth =>
  and_then (exchange (EvGetXBLToken (snd oauth)) (getXBLToken api (snd oauth)))
    (fun xbl =>
  and_then (exchange (EvGetXSTSToken xbl) (getXSTSToken api xbl)) (fun xsts =>
  and_then (exchange (EvGetMCAccessToken xsts) (getMCAccessToken api xsts))
    (fun mcToken =>
  and_then (payload mcToken) (fun token =>
  and_then (exchange (EvGetMCProfile (mc_access_token token))
              (getMCProfile api (mc_access_token token))) (fun mcProfile =>
  stage_ok {| fr_accessToken := fst oauth;
              fr_accessTokenRaw := snd oauth;
              fr_xbl := xbl;
              fr_xsts := xsts;
              fr_mcToken := mcToken;
              fr_mcProfile := mcProfile |})))))).

Definition settle {A} (r : JsError + A) : Settled A :=
  match r with
  | inl e => Rejected e
  | inr a => Resolved a
  end.

(** ** Reading a trace of the chain *)

(** The normalized error of one reply, if it is a failure. *)
Definition reply_error {A} (reply : Settled (MicrosoftResponse A)) : option JsError :=
  match reply with
  | Resolved r =>
      if status_eqb (responseStatus r) ERROR
      then Some (microsoftErrorDisplayable (microsoftErrorCode r))
      else None
  | Rejected _ => Some (microsoftErrorDisplayable UNKNOWN)
  end.

(** The payload of one reply. *)
Definition reply_data {A} (reply : Settled (MicrosoftResponse A)) : option A :=
  match reply with
  | Resolved r => data r
  | Rejected _ => None
  end.

(** The normalized error with which the provider answers a recorded
    exchange of the chain. *)
Definition exchange_error (api : MicrosoftAuthApi) (e : Event) : option JsError :=
  match e with
  | EvGetAccessToken entryCode isRefresh clientId =>
      reply_error (getAccessToken api entryCode isRefresh clientId)
  | EvGetXBLToken raw => reply_error (getXBLToken api raw)
  | EvGetXSTSToken xbl => reply_error (getXSTSToken api xbl)
  | EvGetMCAccessToken xsts => reply_error (getMCAccessToken api xsts)
  | EvGetMCProfile token => reply_error (getMCProfile api token)
  | _ => None
  end.

(** Whether the reply to a recorded exchange lacks the payload that the
    flow reads from it: the OAuth pair, or the game-service token. *)
Definition payload_missing (api : MicrosoftAuthApi) (e : Event) : bool :=
  match e with
  | EvGetAccessToken entryCode isRefresh clientId =>
      match reply_data (getAccessToken api entryCode isRefresh clientId) with
      | Some _ => false
      | None => true
      end
  | EvGetMCAccessToken xsts =>
      match reply_data (getMCAccessToken api xsts) with
      | Some _ => false
      | None => true
      end
  | _ => false
  end.

(** The place of an exchange in the chain. *)
Definition step_number (e : Event) : nat :=
  match e with
  | EvGetAccessToken _ _ _ => 1
  | EvGetXBLToken _ => 2
  | EvGetXSTSToken _ => 3
  | EvGetMCAccessToken _ => 4
  | EvGetMCProfile _ => 5
  | _ => 0
  end.

Definition first_step (authMode : AUTH_MODE) : nat :=
  match authMode with
  | MC_REFRESH => 2
  | _ => 1
  end.

(** ** The refresh strategy of the design

    With the game-service token expired, the design picks the mode by the
    expiry of the OAuth token: [RefreshMs] from the stored refresh token
    when it has expired too, [RefreshMc] from the stored OAuth access token
    when it has not. *)

Definition isExpired (nowInstant expiry : Z) : bool := expiry <=? nowInstant.

Definition refresh_mode (nowInstant : Z) (ms : MicrosoftState) : AUTH_MODE :=
  if isExpired nowInstant (expires_at ms) then MS_REFRESH else MC_REFRESH.

Definition refresh_entry (nowInstant : Z) (ms : MicrosoftState) : string :=
  if isExpired nowInstant (expires_at ms) then ms_refresh_token ms
  else ms_access_token ms.

(** The OAuth fields of the record after a refresh: those of the fresh
    pair, with its expiry stamped, when the flow derived one; the stored
    ones when it did not. *)
Definition refreshed_state (nowInstant : Z) (ms : MicrosoftState)
    (pair : option AccessTokenData) : MicrosoftState :=
  match pair with
  | Some p => {| ms_access_token := access_token p;
                 ms_refresh_token := refresh_token p;
                 expires_at := calculateExpiryDate nowInstant (expires_in p) |}
  | None => ms
  end.

(** The call on the store that a refresh ends with. *)
Definition refresh_update (nowInstant : Z) (current : AuthAccount)
    (ms : MicrosoftState) (res : FlowResult) (token : MCTokenData) : Event :=
  let ms' := refreshed_state nowInstant ms (fr_accessToken res) in
  EvUpdateMicrosoftAuthAccount (uuid current) (mc_access_token token)
    (ms_access_token ms') (ms_refresh_token ms') (expires_at ms')
    (calculateExpiryDate nowInstant (mc_expires_in token)).

(** The call on the store that the creation of an account ends with. *)
Definition creation_write (nowInstant : Z) (profile : MCProfile)
    (token : MCTokenData) (pair : AccessTokenData) : Event :=
  EvAddMicrosoftAuthAccount (profile_id profile) (mc_access_token token)
    (profile_name profile)
    (calculateExpiryDate nowInstant (mc_expires_in token))
    (access_token pair) (refresh_token pair)
    (calculateExpiryDate nowInstant (expires_in pair)).

(** The store after the call that an event records. *)
Definition apply_write {Config} (cm : ConfigManagerApi Config) (e : Event)
    (c : Config) : Config :=
  match e with
  | EvAddGalaxyQuestAuthAccount k token user display =>
      fst (addGalaxyQuestAuthAccount cm k token user display c)
  | EvSetClientToken token => setClientToken cm token c
  | EvAddMicrosoftAuthAccount k token nm mcExpires msAccess msRefresh msExpires =>
      fst (addMicrosoftAuthAccount cm k token nm mcExpires msAccess msRefresh
             msExpires c)
  | EvUpdateMicrosoftAuthAccount k token msAccess msRefresh msExpires mcExpires =>
      updateMicrosoftAuthAccount cm k token msAccess msRefresh msExpires mcExpires c
  | EvUpdateMojangAuthAccount k token => updateMojangAuthAccount cm k token c
  | EvSave => save cm c
  | _ => c
  end.

(** What the store is expected to do with an added Microsoft account: once
    saved, it is the selected account, and its game-service expiry is the
    one that was handed over. *)
Definition selects_added_account {Config} (cm : ConfigManagerApi Config) : Prop :=
  forall k token nm mcExpires msAccess msRefresh msExpires c,
    exists a,
      getSelectedAccount cm
        (save cm (fst (addMicrosoftAuthAccount cm k token nm mcExpires
                         msAccess msRefresh msExpires c))) = Some a /\
      expiresAt a = Some mcExpires.

(** ** An account store *)

(** Modelled from the spec: the AccountStore collaborator
    ([./configmanager] is not among the sources).  Accounts are kept by
    id, at most one id is selected, and [persist] is counted. *)
Record Store := {
  accounts : gmap string AuthAccount;
  selected : option string;
  clientToken : option string;
  persisted : nat
}.

Definition store_getSelectedAccount (s : Store) : option AuthAccount :=
  match selected s with
  | Some k => accounts s !! k
  | None => None
  end.

Definition store_add (a : AuthAccount) (s : Store) : Store * AuthAccount :=
  ({| accounts := <[uuid a := a]> (accounts s);
      selected := Some (uuid a);
      clientToken := clientToken s;
      persisted := persisted s |}, a).

Definition store_update (k : string) (f : AuthAccount -> AuthAccount) (s : Store)
  : Store :=
  {| accounts := alter f k (accounts s);
     selected := selected s;
     clientToken := clientToken s;
     persisted := persisted s |}.

Definition store_persist (s : Store) : Store :=
  {| accounts := accounts s;
     selected := selected s;
     clientToken := clientToken s;
     persisted := S (persisted s) |}.

(** Modelled from the spec: the functions of [ConfigManager] over the
    AccountStore.  An added account becomes the selected one; an update
    changes the token fields and the expiries of the record in place and
    leaves its identity alone. *)
Definition StoreManager : ConfigManagerApi Store :=
  {| getSelectedAccount := store_getSelectedAccount;
     getClientToken := clientToken;
     setClientToken := fun t s =>
       {| accounts := accounts s; selected := selected s;
          clientToken := Some t; persisted := persisted s |};
     addGalaxyQuestAuthAccount := fun k token user display =>
       store_add {| type := "password"; uuid := k; accessToken := token;
                    username := user; displayName := display;
                    expiresAt := None; microsoft := None |};
     addMicrosoftAuthAccount := fun k token nm mcExpires msAccess msRefresh msExpires =>
       store_add {| type := "microsoft"; uuid := k; accessToken := token;
                    username := nm; displayName := nm;
                    expiresAt := Some mcExpires;
                    microsoft := Some {| ms_access_token := msAccess;
                                         ms_refresh_token := msRefresh;
                                         expires_at := msExpires |} |};
     updateMicrosoftAuthAccount := fun k token msAccess msRefresh msExpires mcExpires =>
       store_update k (fun a =>
         {| type := type a; uuid := uuid a; accessToken := token;
            username := username a; displayName := displayName a;
            expiresAt := Some mcExpires;
            microsoft := Some {| ms_access_token := msAccess;
                                 ms_refresh_token := msRefresh;
                                 expires_at := msExpires |} |});
     updateMojangAuthAccount := fun k token =>
       store_update k (fun a =>
         {| type := type a; uuid := uuid a; accessToken := token;
            username := username a; displayName := displayName a;
            expiresAt := expiresAt a; microsoft := microsoft a |});
     save := store_persist |}.

Definition empty_store : Store :=
  {| accounts := ∅; selected := None; clientToken := None; persisted := 0 |}.

Definition start (s : Store) (now : Z) : World Store :=
  {| config := s; clock := now; trace := [] |}.

(** ** Collaborators used in the examples *)

Definition ok {A} (a : A) : Settled (MicrosoftResponse A) :=
  Resolved {| responseStatus := SUCCESS; data := Some a;
              microsoftErrorCode := UNKNOWN |}.

Definition failed {A} (c : MicrosoftErrorCode) : Settled (MicrosoftResponse A) :=
  Resolved {| responseStatus := ERROR; data := None; microsoftErrorCode := c |}.

(** A provider at which every exchange succeeds; the two lifetimes are
    what it reports for the game-service token and for the OAuth token. *)
Definition provider (mcLifetime msLifetime : Z) : MicrosoftAuthApi :=
  {| getAccessToken := fun _ _ _ =>
       ok {| access_token := "ms-access"; refresh_token := "ms-refresh";
             expires_in := msLifetime |};
     getXBLToken := fun _ => ok {| xbl_token := "xbl" |};
     getXSTSToken := fun _ => ok {| xsts_token := "xsts" |};
     getMCAccessToken := fun _ =>
       ok {| mc_access_token := "mc-access"; mc_expires_in := mcLifetime |};
     getMCProfile := fun _ =>
       ok {| profile_id := "player-1"; profile_name := "Player" |} |}.

(** A provider whose XSTS endpoint reports an error code. *)
Definition provider_without_xbox : MicrosoftAuthApi :=
  {| getAccessToken := getAccessToken (provider 86400 3600);
     getXBLToken := getXBLToken (provider 86400 3600);
     getXSTSToken := fun _ => failed (ProviderCode 3);
     getMCAccessToken := getMCAccessToken (provider 86400 3600);
     getMCProfile := getMCProfile (provider 86400 3600) |}.

Definition pending_result : LoginResult :=
  {| status := "pending"; requires2fa := true; lr_uuid := EmptyString;
     lr_accessToken := EmptyString; lr_username := EmptyString |}.

Definition error_result : LoginResult :=
  {| status := "error"; requires2fa := false; lr_uuid := EmptyString;
     lr_accessToken := EmptyString; lr_username := EmptyString |}.

Definition success_result : LoginResult :=
  {| status := "success"; requires2fa := false; lr_uuid := "user-1";
     lr_accessToken := "gq-token"; lr_username := "alice" |}.

(** A login service that asks for a second factor and accepts the code
    ["123456"] only. *)
Definition second_factor_client : AuthClientApi :=
  {| login := fun _ _ code =>
       match code with
       | None => Resolved pending_result
       | Some c => if String.eqb c "123456" then Resolved success_result
                   else Resolved error_result
       end |}.

(** A login service that turns the credentials down. *)
Definition refusing_client : AuthClientApi :=
  {| login := fun _ _ _ => Resolved error_result |}.

(** A session service whose validate call comes back with a failure. *)
Definition unreachable_mojang : MojangRestApi :=
  {| validate := fun _ _ =>
       Resolved {| mj_responseStatus := ERROR; mj_data := None |};
     refresh := fun _ _ =>
       Resolved {| mj_responseStatus := ERROR; mj_data := None |} |}.

Definition scope_with_mojang (api : MojangRestApi) : Scope Store :=
  {| scope_MojangRestAPI := Some api;
     scope_mojangErrorDisplayable := false;
     scope_MojangErrorCode := false;
     scope_validateSelectedGalaxyquestAccount := None |}.

(** A Microsoft account as [addMicrosoftAuthAccount] stores it. *)
Definition microsoft_account (mcExpires msExpires : Z) : AuthAccount :=
  {| type := "microsoft"; uuid := "player-1"; accessToken := "old-mc-access";
     username := "Player"; displayName := "Player";
     expiresAt := Some mcExpires;
     microsoft := Some {| ms_access_token := "old-ms-access";
                          ms_refresh_token := "old-ms-refresh";
                          expires_at := msExpires |} |}.

Definition password_account : AuthAccount :=
  {| type := "password"; uuid := "user-1"; accessToken := "gq-token";
     username := "alice"; displayName := "alice";
     expiresAt := None; microsoft := None |}.

Definition store_with (a : AuthAccount) : Store :=
  fst (store_add a empty_store).

(** A scope in which the two names of helios-core/mojang that
    [addGalaxyQuestAccount] uses are bound. *)
Definition scope_with_mojang_errors : Scope Store :=
  {| scope_MojangRestAPI := None;
     scope_mojangErrorDisplayable := true;
     scope_MojangErrorCode := true;
     scope_validateSelectedGalaxyquestAccount := None |}.

(** A store whose selected Microsoft account has an expired game-service
    token (instant 1000) and an OAuth token that expires at the given
    instant; the worlds below read the clock at 5000. *)
Definition expired_world (msExpires : Z) : World Store :=
  start (store_with (microsoft_account 1000 msExpires)) 5000.

Definition stored_state (msExpires : Z) : MicrosoftState :=
  {| ms_access_token := "old-ms-access";
     ms_refresh_token := "old-ms-refresh";
     expires_at := msExpires |}.

Definition client_id : string := "client".

(** The world in which the examples create an account: an empty store,
    the clock at 5000. *)
Definition first_run : World Store := start empty_store 5000.

(** The account that the examples create there, from the provider that
    reports 86400 and 3600 seconds. *)
Definition created_account : AuthAccount :=
  {| type := "microsoft"; uuid := "player-1"; accessToken := "mc-access";
     username := "Player"; displayName := "Player";
     expiresAt := Some 86395000;
     microsoft := Some {| ms_access_token := "ms-access";
                          ms_refresh_token := "ms-refresh";
                          expires_at := 3595000 |} |}.

(** A world whose selected account is a password account. *)
Definition password_world : World Store := start (store_with password_account) 5000.

Definition failure_response : MojangResponse bool :=
  {| mj_responseStatus := ERROR; mj_data := None |}.


(** * The remaining functions of the module *)

(** ** Removal of accounts *)

(** The two further functions of [./configmanager] that the removals
    call.  The removals wrap them in [try]/[catch], so here they may
    throw.  [removeAuthAccount] gives the store as the call left it and
    the error that it threw, if it threw: a removal that throws may have
    changed the store before.  A removal shows in the store; the record
    of calls keeps the save that follows it. *)
Record ConfigManagerRemovalApi (Config : Type) := {
  getAuthAccount : string -> Config -> JsError + option AuthAccount;
  removeAuthAccount : string -> Config -> Config * option JsError
}.
Arguments getAuthAccount {Config} _ _ _.
Arguments removeAuthAccount {Config} _ _ _.

Section Removal.
Context {Config : Type}.
Variable ConfigManager : ConfigManagerApi Config.
Variable Removal : ConfigManagerRemovalApi Config.

Local Open Scope js_scope.

(** A getter of the store that may throw. *)
Definition store_lookup {A} (f : Config -> JsError + A) : M Config A :=
  fun w =>
    match f (config w) with
    | inr a => (Normal a, w)
    | inl e => (Throw e, w)
    end.

(** A change of the store that may throw; the store is the one the call
    left, whether it returned or threw. *)
Definition store_change (f : Config -> Config * option JsError) : M Config unit :=
  fun w =>
    match f (config w) with
    | (c, None) =>
        (Normal tt, {| config := c; clock := clock w; trace := trace w |})
    | (c, Some e) =>
        (Throw e, {| config := c; clock := clock w; trace := trace w |})
    end.

Definition removeMicrosoftAccount (uuid : string) : Async Config unit :=
  async (
    try_catch (
      run store_change (removeAuthAccount Removal uuid);
      run store_put EvSave (save ConfigManager);
      ret tt)
      (fun err => return_reject err)).

Definition removeGalaxyquestAccount (uuid : string) : Async Config unit :=
  async (
    try_catch (
      do authAcc <- store_lookup (getAuthAccount Removal uuid);
      run store_change (removeAuthAccount Removal uuid);
      run store_put EvSave (save ConfigManager);
      ret tt)
      (fun err => return_reject err)).
End Removal.

(** Modelled from the spec: [getAccount] and [removeAccount] of the
    AccountStore.  A removal deletes the record kept under the id and
    leaves the selection as it is; a selected id without a record selects
    nothing. *)
Definition StoreRemoval : ConfigManagerRemovalApi Store :=
  {| getAuthAccount := fun k s => inr (accounts s !! k);
     removeAuthAccount := fun k s =>
       ({| accounts := delete k (accounts s);
           selected := selected s;
           clientToken := clientToken s;
           persisted := persisted s |}, None) |}.

(** A store whose removal throws. *)
Definition failing_removal : ConfigManagerRemovalApi Store :=
  {| getAuthAccount := fun k s => inr (accounts s !! k);
     removeAuthAccount := fun _ s =>
       (s, Some (CollaboratorFault "removeAuthAccount")) |}.

(** ** Further collaborators used in the examples *)

Definition is_login (e : Event) : bool :=
  match e with EvLogin _ _ _ => true | _ => false end.

(** A login service that accepts the credentials at once. *)
Definition accepting_client : AuthClientApi :=
  {| login := fun _ _ _ => Resolved success_result |}.

(** A login service that cannot be reached. *)
Definition faulty_client : AuthClientApi :=
  {| login := fun _ _ _ => Rejected (CollaboratorFault "network") |}.

Definition empty_response {A} : Settled (MicrosoftResponse A) :=
  Resolved {| responseStatus := SUCCESS; data := None;
              microsoftErrorCode := UNKNOWN |}.

(** A provider whose profile endpoint answers with success and no
    payload. *)
Definition provider_without_profile : MicrosoftAuthApi :=
  {| getAccessToken := getAccessToken (provider 86400 3600);
     getXBLToken := getXBLToken (provider 86400 3600);
     getXSTSToken := getXSTSToken (provider 86400 3600);
     getMCAccessToken := getMCAccessToken (provider 86400 3600);
     getMCProfile := fun _ => empty_response |}.

(** A provider whose Xbox Live endpoint answers with success and no
    payload. *)
Definition provider_without_xbl_payload : MicrosoftAuthApi :=
  {| getAccessToken := getAccessToken (provider 86400 3600);
     getXBLToken := fun _ => empty_response;
     getXSTSToken := getXSTSToken (provider 86400 3600);
     getMCAccessToken := getMCAccessToken (provider 86400 3600);
     getMCProfile := getMCProfile (provider 86400 3600) |}.

Definition mojang_reply {A} (s : RestResponseStatus) (d : option A)
  : Settled (MojangResponse A) :=
  Resolved {| mj_responseStatus := s; mj_data := d |}.

(** A session service that finds the token valid. *)
Definition valid_mojang : MojangRestApi :=
  {| validate := fun _ _ => mojang_reply SUCCESS (Some true);
     refresh := fun _ _ => mojang_reply ERROR None |}.

(** A session service that finds the token invalid and refreshes it. *)
Definition refreshing_mojang : MojangRestApi :=
  {| validate := fun _ _ => mojang_reply SUCCESS (Some false);
     refresh := fun _ _ =>
       mojang_reply SUCCESS (Some {| session_accessToken := "fresh-token" |}) |}.

(** A session service that finds the token invalid and refuses the
    refresh. *)
Definition expired_mojang : MojangRestApi :=
  {| validate := fun _ _ => mojang_reply SUCCESS (Some false);
     refresh := fun _ _ => mojang_reply ERROR None |}.

(** A session service whose calls reject. *)
Definition faulty_mojang : MojangRestApi :=
  {| validate := fun _ _ => Rejected (CollaboratorFault "network");
     refresh := fun _ _ => Rejected (CollaboratorFault "network") |}.

(** The reply of the login service that decides the outcome of
    [addGalaxyQuestAccount]: the second one when the first reports a
    pending second factor, the first one otherwise. *)
Definition final_login (client : AuthClientApi) (username password : string)
  : Settled LoginResult :=
  match login client username password None with
  | Resolved result =>
      if String.eqb (status result) "pending" && requires2fa result
      then login client username password (Some EmptyString)
      else Resolved result
  | Rejected e => Rejected e
  end.

(** ** The password login, case by case *)

(** What [mojangErrorDisplayable(MojangErrorCode.c)] comes to in a scope:
    the displayable error, or the [ReferenceError] of the first of the two
    names that the scope does not bind. *)
Definition login_rejection {Config} (sc : Scope Config) (c : MojangErrorCode)
  : JsError :=
  if scope_mojangErrorDisplayable sc then
    if scope_MojangErrorCode sc then mojangErrorDisplayable c
    else ReferenceError "MojangErrorCode"
  else ReferenceError "mojangErrorDisplayable".

(** The logins that [addGalaxyQuestAccount] makes. *)
Definition login_events (client : AuthClientApi) (username password : string)
  : list Event :=
  EvLogin username password None ::
  match login client username password None with
  | Resolved result =>
      if String.eqb (status result) "pending" && requires2fa result
      then [EvLogin username password (Some EmptyString)]
      else []
  | Rejected _ => []
  end.

(** The store and the record of calls after the account of a login result
    was stored. *)
Definition stored_login {Config} (cm : ConfigManagerApi Config)
    (result : LoginResult) (w : World Config) : World Config :=
  let added :=
    fst (addGalaxyQuestAuthAccount cm (lr_uuid result) (lr_accessToken result)
           (lr_username result) (lr_username result) (config w)) in
  let write :=
    EvAddGalaxyQuestAuthAccount (lr_uuid result) (lr_accessToken result)
      (lr_username result) (lr_username result) in
  match getClientToken cm added with
  | None =>
      {| config := save cm (setClientToken cm (lr_accessToken result) added);
         clock := clock w;
         trace := trace w ++
           [write; EvSetClientToken (lr_accessToken result); EvSave] |}
  | Some _ =>
      {| config := save cm added;
         clock := clock w;
         trace := trace w ++ [write; EvSave] |}
  end.

(** * Properties *)

(** ** The expiry policy *)

(** C3, as amended: for every [now] and lifetime, the expiry is [now] plus
    the lifetime less the margin of 10 seconds, brought to milliseconds;
    nothing is clamped, and the expiry lies before [now] exactly when the
    lifetime is below the margin. *)
Theorem calculateExpiryDate_margin (now lifetime : Z) :
  marginSeconds = 10 /\
  calculateExpiryDate now lifetime = now + secondsToMs (lifetime - marginSeconds) /\
  (calculateExpiryDate now lifetime <? now) = (lifetime <? marginSeconds).
Proof.
  unfold calculateExpiryDate, secondsToMs, marginSeconds.
  repeat split.
  destruct (Z.ltb_spec lifetime 10); [apply Z.ltb_lt | apply Z.ltb_ge]; lia.
Qed.

(** C3, as stated, fails: a lifetime of 0 seconds is below the margin and
    the expiry computed at instant 1000 lies before that instant. *)
Lemma calculateExpiryDate_underflows :
  0 < marginSeconds /\ ~ (1000 <= calculateExpiryDate 1000 0).
Proof. split; [reflexivity | vm_compute; intros H; apply H; reflexivity]. Qed.

(** C7: the expiry is a function of its two arguments alone, it never
    exceeds [now] plus the lifetime, and from a lifetime of 10 seconds on it
    is exactly [now] plus the lifetime less 10 seconds, all in milliseconds;
    [calculateExpiryDate 1000 3600] is [1000 + 3590000]. *)
Theorem calculateExpiryDate_bound (now lifetime : Z) :
  (forall now' lifetime', now' = now -> lifetime' = lifetime ->
     calculateExpiryDate now' lifetime' = calculateExpiryDate now lifetime) /\
  calculateExpiryDate now lifetime <= now + secondsToMs lifetime /\
  (10 <= lifetime ->
   calculateExpiryDate now lifetime = now + secondsToMs lifetime - secondsToMs 10) /\
  calculateExpiryDate 1000 3600 = 1000 + 3590000.
Proof.
  unfold calculateExpiryDate, secondsToMs.
  repeat split; intros; subst; lia.
Qed.

(** C7 at work: a lifetime of one hour. *)
Lemma calculateExpiryDate_bound_witness :
  10 <= 3600 /\ calculateExpiryDate 1000 3600 = 1000 + secondsToMs 3600 - secondsToMs 10.
Proof.
  split; [lia | apply (proj1 (proj2 (proj2 (calculateExpiryDate_bound 1000 3600)))); lia].
Defined.

(** ** The Microsoft chain *)

Ltac unfold_js :=
  cbv beta iota delta [async try_catch await bind call emit check deref ret throw
    return_reject getTime store_get store_put store_call] in *.

Ltac unfold_chain :=
  unfold chain, oauth_stage, and_then, exchange, payload, stage_ok, stage_error.

(** Case analysis on the reply of the next endpoint that is contacted. *)
Ltac destruct_reply :=
  match goal with
  | |- context [match ?x with _ => _ end] =>
      match type of x with
      | Settled (MicrosoftResponse _) =>
          let E := fresh "Hreply" in
          destruct x as [[[|] [?|] ?]|?] eqn:E
      end
  end.

Section Chain.
Context {Config : Type}.
Variable api : MicrosoftAuthApi.
Variable clientId : string.

(** The flow is the pipeline: same outcome, same exchanges in the same
    order, and neither the store nor the clock is touched. *)
Lemma fullMicrosoftAuthFlow_chain entry mode (w : World Config) :
  fullMicrosoftAuthFlow api clientId entry mode w =
  (settle (fst (chain api clientId entry mode)),
   append_events w (EvFlow entry mode :: snd (chain api clientId entry mode))).
Proof.
  unfold fullMicrosoftAuthFlow, append_events. unfold_chain. unfold_js.
  destruct mode; simpl.
  all: repeat (destruct_reply; simpl).
  all: rewrite <- ?app_assoc; reflexivity.
Qed.

Lemma chain_success entry mode res :
  fst (chain api clientId entry mode) = inr res ->
  (exists token, fr_mcToken res = Some token) /\
  match mode with
  | MC_REFRESH => fr_accessToken res = None
  | _ => exists pair, fr_accessToken res = Some pair
  end.
Proof.
  unfold_chain.
  destruct mode; simpl.
  all: repeat (destruct_reply; simpl).
  all: intros H; inversion H; subst; simpl; eauto.
Qed.

Lemma chain_events entry mode :
  Forall (fun e => is_network e = true /\ is_flow e = false /\
                   is_store_write e = false)
         (snd (chain api clientId entry mode)).
Proof.
  unfold_chain.
  destruct mode; simpl.
  all: repeat (destruct_reply; simpl).
  all: repeat constructor.
Qed.

(** A chain that ran to its end met no failing exchange. *)
Lemma chain_success_exchanges entry mode res :
fst (chain api clientId entry mode) = inr res ->
Forall (fun e => exchange_error api e = None) (snd (chain api clientId entry mode)).
Proof.
unfold_chain.
destruct mode; simpl.
all: repeat (destruct_reply; simpl).
all: intros H; try discriminate H.
all: repeat constructor.
all: simpl; unfold reply_error;
  repeat match goal with
         | E : ?l = _ |- context [?l] => rewrite E
         end; reflexivity.
Qed.

Lemma chain_mc_refresh_skips_oauth entry :
  Forall (fun e => is_oauth e = false) (snd (chain api clientId entry MC_REFRESH)).
Proof.
  unfold_chain. simpl.
  repeat (destruct_reply; simpl).
  all: repeat constructor.
Qed.

Lemma chain_oauth_first entry mode :
  mode <> MC_REFRESH ->
  exists rest,
    snd (chain api clientId entry mode) =
    EvGetAccessToken entry (mode_eqb mode MS_REFRESH) clientId :: rest.
Proof.
  intros Hmode. unfold_chain.
  destruct mode; try congruence; simpl.
  all: repeat (destruct_reply; simpl).
  all: eauto.
Qed.

Ltac use_replies :=
  simpl; unfold reply_error, reply_data;
  repeat match goal with
         | H : ?l = _ |- context [?l] => rewrite H
         end;
  simpl.

(** C6: the flow, exchange by exchange.  The endpoints are contacted one
    after the other in the order of the chain, each with the payload of
    the one before.  The first exchange that fails ends the flow: it is
    rejected with the normalized error of that very exchange, and no
    further endpoint is contacted; a reply without the payload that the
    flow reads from it ends the flow with [UNKNOWN].  When no exchange
    fails the flow resolves with the payloads of all of them and the OAuth
    pair, and the pair is absent in mode [MC_REFRESH], where the entry
    code goes to the Xbox Live endpoint and the OAuth token endpoint is
    not contacted. *)
Theorem fullMicrosoftAuthFlow_short_circuits entry mode (w : World Config) :
fullMicrosoftAuthFlow api clientId entry mode w =
(let stop := fun (e : JsError) (made : list Event) =>
   (@Rejected FlowResult e, append_events w (EvFlow entry mode :: made)) in
 let downstream :=
   fun (oauth : option AccessTokenData) (raw : string) (made : list Event) =>
   let made := made ++ [EvGetXBLToken raw] in
   match reply_error (getXBLToken api raw) with
   | Some e => stop e made
   | None =>
   let xbl := reply_data (getXBLToken api raw) in
   let made := made ++ [EvGetXSTSToken xbl] in
   match reply_error (getXSTSToken api xbl) with
   | Some e => stop e made
   | None =>
   let xsts := reply_data (getXSTSToken api xbl) in
   let made := made ++ [EvGetMCAccessToken xsts] in
   match reply_error (getMCAccessToken api xsts) with
   | Some e => stop e made
   | None =>
   match reply_data (getMCAccessToken api xsts) with
   | None => stop (microsoftErrorDisplayable UNKNOWN) made
   | Some token =>
   let made := made ++ [EvGetMCProfile (mc_access_token token)] in
   match reply_error (getMCProfile api (mc_access_token token)) with
   | Some e => stop e made
   | None =>
       (Resolved {| fr_accessToken := oauth;
                    fr_accessTokenRaw := raw;
                    fr_xbl := xbl;
                    fr_xsts := xsts;
                    fr_mcToken := Some token;
                    fr_mcProfile :=
                      reply_data (getMCProfile api (mc_access_token token)) |},
        append_events w (EvFlow entry mode :: made))
   end end end end end in
 match mode with
 | MC_REFRESH => downstream None entry []
 | _ =>
     let made := [EvGetAccessToken entry (mode_eqb mode MS_REFRESH) clientId] in
     match reply_error (getAccessToken api entry (mode_eqb mode MS_REFRESH) clientId) with
     | Some e => stop e made
     | None =>
     match reply_data (getAccessToken api entry (mode_eqb mode MS_REFRESH) clientId) with
     | None => stop (microsoftErrorDisplayable UNKNOWN) made
     | Some oauth => downstream (Some oauth) (access_token oauth) made
     end end
 end) /\
exists calls,
    snd (fullMicrosoftAuthFlow api clientId entry mode w) =
      append_events w (EvFlow entry mode :: calls) /\
    map step_number calls = seq (first_step mode) (length calls) /\
    match fst (fullMicrosoftAuthFlow api clientId entry mode w) with
    | Rejected e =>
        exists before last,
          calls = before ++ [last] /\
          Forall (fun ev => exchange_error api ev = None) before /\
          (exchange_error api last = Some e \/
           (exchange_error api last = None /\
            payload_missing api last = true /\
            e = microsoftErrorDisplayable UNKNOWN))
    | Resolved res =>
        Forall (fun ev => exchange_error api ev = None) calls /\
        match mode with
        | MC_REFRESH =>
            fr_accessToken res = None /\ fr_accessTokenRaw res = entry
        | _ =>
            exists pair,
              reply_data (getAccessToken api entry (mode_eqb mode MS_REFRESH)
                            clientId) = Some pair /\
              fr_accessToken res = Some pair /\
              fr_accessTokenRaw res = access_token pair
        end /\
        fr_xbl res = reply_data (getXBLToken api (fr_accessTokenRaw res)) /\
        fr_xsts res = reply_data (getXSTSToken api (fr_xbl res)) /\
        fr_mcToken res = reply_data (getMCAccessToken api (fr_xsts res)) /\
        exists token,
          fr_mcToken res = Some token /\
          fr_mcProfile res =
            reply_data (getMCProfile api (mc_access_token token)) /\
          calls =
            match mode with
            | MC_REFRESH => []
            | _ => [EvGetAccessToken entry (mode_eqb mode MS_REFRESH) clientId]
            end ++
            [EvGetXBLToken (fr_accessTokenRaw res);
             EvGetXSTSToken (fr_xbl res);
             EvGetMCAccessToken (fr_xsts res);
             EvGetMCProfile (mc_access_token token)]
    end.
Proof.
split.
{ rewrite fullMicrosoftAuthFlow_chain.
  unfold_chain. unfold reply_error, reply_data. cbv zeta.
  destruct mode; simpl.
  all: repeat (destruct_reply; simpl).
  all: reflexivity. }
rewrite fullMicrosoftAuthFlow_chain.
exists (snd (chain api clientId entry mode)).
split; [reflexivity |].
cbn [fst snd].
unfold_chain.
destruct mode; simpl.
all: repeat (destruct_reply; simpl).
all: split; [reflexivity |].
all: try match goal with
     | |- exists before last, ?l = _ /\ _ =>
         exists (removelast l), (List.last l EvSave); simpl;
         split; [reflexivity |];
         split; [repeat constructor; use_replies; reflexivity |];
         use_replies; auto
     end.
all: split; [repeat constructor; use_replies; reflexivity |].
all: repeat match goal with
            | |- _ /\ _ => split
            | |- exists _, _ => eexists
            | |- _ => reflexivity
            end.
all: use_replies; reflexivity.
Qed.
End Chain.

(** ** Validation of a Microsoft account *)

Lemma filter_none {A} (f : A -> bool) (l : list A) :
  Forall (fun a => f a = false) l -> List.filter f l = [].
Proof.
  induction 1 as [|a l Ha _ IH]; simpl; [reflexivity |].
  rewrite Ha. exact IH.
Qed.

Section Validation.
Context {Config : Type}.
Variable cm : ConfigManagerApi Config.
Variable api : MicrosoftAuthApi.
Variable clientId : string.

Local Abbreviation validate := (validateSelectedMicrosoftAccount cm api clientId).
Local Abbreviation flow := (fullMicrosoftAuthFlow api clientId).

(** The fast path: a game-service token that has not expired. *)
Lemma validate_fresh (w : World Config) current :
  getSelectedAccount cm (config w) = Some current ->
  js_ge (clock w) (expiresAt current) = false ->
  validate w = (Resolved (JsBool true), w).
Proof.
  intros Hsel Hexp. unfold validateSelectedMicrosoftAccount. unfold_js.
  rewrite Hsel. simpl. rewrite Hexp. reflexivity.
Qed.

(** A refresh whose chain fails. *)
Lemma validate_refresh_fails (w : World Config) current ms e :
  getSelectedAccount cm (config w) = Some current ->
  js_ge (clock w) (expiresAt current) = true ->
  microsoft current = Some ms ->
  fst (chain api clientId (refresh_entry (clock w) ms) (refresh_mode (clock w) ms))
    = inl e ->
  validate w =
  (Resolved (JsBool false),
   append_events w
     (EvFlow (refresh_entry (clock w) ms) (refresh_mode (clock w) ms)
      :: snd (chain api clientId (refresh_entry (clock w) ms)
                (refresh_mode (clock w) ms)))).
Proof.
  intros Hsel Hexp Hms. unfold refresh_entry, refresh_mode, isExpired.
  unfold validateSelectedMicrosoftAccount. unfold_js.
  rewrite Hsel. simpl. rewrite Hexp. simpl. rewrite Hms. simpl.
  destruct (expires_at ms <=? clock w); intros Hchain;
    rewrite fullMicrosoftAuthFlow_chain, Hchain; reflexivity.
Qed.

(** A refresh whose chain succeeds. *)
Lemma validate_refresh_succeeds (w : World Config) current ms res :
  getSelectedAccount cm (config w) = Some current ->
  js_ge (clock w) (expiresAt current) = true ->
  microsoft current = Some ms ->
  fst (chain api clientId (refresh_entry (clock w) ms) (refresh_mode (clock w) ms))
    = inr res ->
  exists token,
    fr_mcToken res = Some token /\
    validate w =
    (Resolved (JsBool true),
     {| config := save cm (apply_write cm (refresh_update (clock w) current ms res token)
                             (config w));
        clock := clock w;
        trace := trace w ++
          (EvFlow (refresh_entry (clock w) ms) (refresh_mode (clock w) ms)
           :: snd (chain api clientId (refresh_entry (clock w) ms)
                     (refresh_mode (clock w) ms))) ++
          [refresh_update (clock w) current ms res token; EvSave] |}).
Proof.
  intros Hsel Hexp Hms Hchain.
  destruct (chain_success _ _ _ _ _ Hchain) as [[token Htoken] Hpair].
  exists token. split; [exact Htoken |].
  revert Hchain Hpair. unfold refresh_entry, refresh_mode, isExpired, refresh_update.
  unfold validateSelectedMicrosoftAccount. unfold_js.
  rewrite Hsel. simpl. rewrite Hexp. simpl. rewrite Hms. simpl.
  destruct (expires_at ms <=? clock w); intros Hchain Hpair;
    rewrite fullMicrosoftAuthFlow_chain, Hchain; simpl; rewrite Htoken; simpl.
  - destruct Hpair as [pair Hpair]. rewrite Hpair. simpl.
    rewrite <- !app_assoc. reflexivity.
  - rewrite Hpair. simpl. rewrite <- !app_assoc. reflexivity.
Qed.

(** The validator of Microsoft accounts resolves to a boolean for every
    selected record that carries its Microsoft state. *)
Lemma validate_boolean (w : World Config) current ms :
getSelectedAccount cm (config w) = Some current ->
microsoft current = Some ms ->
exists b w', validate w = (Resolved (JsBool b), w').
Proof.
intros Hsel Hms.
destruct (js_ge (clock w) (expiresAt current)) eqn:Hexp.
- destruct (fst (chain api clientId (refresh_entry (clock w) ms)
                   (refresh_mode (clock w) ms))) as [e|res] eqn:Hchain.
  + rewrite (validate_refresh_fails w current ms e Hsel Hexp Hms Hchain). eauto.
  + destruct (validate_refresh_succeeds w current ms res Hsel Hexp Hms Hchain)
      as [token [_ Hrun]].
    rewrite Hrun. eauto.
- rewrite (validate_fresh w current Hsel Hexp). eauto.
Qed.

(** C1: a failing exchange makes the flow of a validation reject; when
    that flow rejects, the validation resolves to false, the store is the
    one it began with, the selected record included, and nothing was
    written or saved; the one update and the one save of a validation come
    after a flow that resolved. *)
Theorem validateSelectedMicrosoftAccount_atomic (w : World Config) current ms :
getSelectedAccount cm (config w) = Some current ->
js_ge (clock w) (expiresAt current) = true ->
microsoft current = Some ms ->
exists calls,
  snd (flow (refresh_entry (clock w) ms) (refresh_mode (clock w) ms) w) =
    append_events w calls /\
  Forall (fun e => is_store_write e = false) calls /\
  (Exists (fun e => exchange_error api e <> None) calls ->
   exists err,
     fst (flow (refresh_entry (clock w) ms) (refresh_mode (clock w) ms) w)
       = Rejected err) /\
  match fst (flow (refresh_entry (clock w) ms) (refresh_mode (clock w) ms) w) with
  | Rejected _ =>
      validate w = (Resolved (JsBool false), append_events w calls) /\
      config (snd (validate w)) = config w /\
      getSelectedAccount cm (config (snd (validate w))) = Some current
  | Resolved res =>
      exists update,
        is_store_write update = true /\
        validate w =
          (Resolved (JsBool true),
           {| config := save cm (apply_write cm update (config w));
              clock := clock w;
              trace := trace w ++ calls ++ [update; EvSave] |})
  end.
Proof.
intros Hsel Hexp Hms.
exists (EvFlow (refresh_entry (clock w) ms) (refresh_mode (clock w) ms)
        :: snd (chain api clientId (refresh_entry (clock w) ms)
                  (refresh_mode (clock w) ms))).
rewrite fullMicrosoftAuthFlow_chain. cbn [fst snd].
split; [reflexivity |].
split.
{ constructor; [reflexivity |].
  eapply Forall_impl; [apply chain_events |]. intros e He. apply He. }
destruct (fst (chain api clientId (refresh_entry (clock w) ms)
                 (refresh_mode (clock w) ms))) as [e|res] eqn:Hchain; simpl.
- split; [intros _; exists e; reflexivity |].
  rewrite (validate_refresh_fails w current ms e Hsel Hexp Hms Hchain).
  simpl. auto.
- split.
  { intros Hfailed. exfalso.
    apply Exists_exists in Hfailed. destruct Hfailed as [ev [Hin Herr]].
    apply elem_of_cons in Hin. destruct Hin as [-> | Hin]; [apply Herr; reflexivity |].
    pose proof (chain_success_exchanges api clientId _ _ res Hchain) as Hok.
    rewrite Forall_forall in Hok. apply Herr, Hok, Hin. }
  destruct (validate_refresh_succeeds w current ms res Hsel Hexp Hms Hchain)
    as [token [_ Hrun]].
  exists (refresh_update (clock w) current ms res token).
  split; [reflexivity | exact Hrun].
Qed.

(** C2: with the game-service token expired, a validation enters the flow
    once.  When the OAuth token has expired too, it enters in mode
    [MS_REFRESH] with the stored refresh token, and the first exchange is
    the one with the OAuth token endpoint, asked for a refresh.  When the
    OAuth token is still valid, it enters in mode [MC_REFRESH] with the
    stored OAuth access token and the OAuth token endpoint is not
    contacted. *)
Theorem validateSelectedMicrosoftAccount_strategy (w : World Config) current ms :
getSelectedAccount cm (config w) = Some current ->
js_ge (clock w) (expiresAt current) = true ->
microsoft current = Some ms ->
exists rest,
  List.filter is_flow rest = [] /\
  if isExpired (clock w) (expires_at ms)
  then
    trace (snd (validate w)) =
      trace w ++ EvFlow (ms_refresh_token ms) MS_REFRESH
                 :: EvGetAccessToken (ms_refresh_token ms) true clientId :: rest
  else
    trace (snd (validate w)) =
      trace w ++ EvFlow (ms_access_token ms) MC_REFRESH :: rest /\
    List.filter is_oauth rest = [].
Proof.
intros Hsel Hexp Hms.
pose proof (chain_events api clientId (refresh_entry (clock w) ms)
              (refresh_mode (clock w) ms)) as Hevents.
pose proof (chain_mc_refresh_skips_oauth api clientId (ms_access_token ms)) as Hskip.
pose proof (chain_oauth_first api clientId (ms_refresh_token ms) MS_REFRESH) as Hfirst.
assert (Hrun : exists tail,
          Forall (fun e => is_flow e = false /\ is_oauth e = false) tail /\
          trace (snd (validate w)) =
            trace w ++ EvFlow (refresh_entry (clock w) ms) (refresh_mode (clock w) ms)
                       :: snd (chain api clientId (refresh_entry (clock w) ms)
                                 (refresh_mode (clock w) ms)) ++ tail).
{ destruct (fst (chain api clientId (refresh_entry (clock w) ms)
                   (refresh_mode (clock w) ms))) as [e|res] eqn:Hchain.
  - exists []. split; [constructor |].
    rewrite (validate_refresh_fails w current ms e Hsel Hexp Hms Hchain).
    simpl. rewrite app_nil_r. reflexivity.
  - destruct (validate_refresh_succeeds w current ms res Hsel Hexp Hms Hchain)
      as [token [_ Hrun]].
    exists [refresh_update (clock w) current ms res token; EvSave].
    split; [repeat constructor |].
    rewrite Hrun. reflexivity. }
destruct Hrun as [tail [Htail Htrace]].
revert Hevents Htrace. unfold refresh_entry, refresh_mode.
destruct (isExpired (clock w) (expires_at ms)); intros Hevents Htrace.
- destruct Hfirst as [rest Hrest]; [discriminate |].
  rewrite Hrest in Hevents, Htrace. simpl in Htrace.
  exists (rest ++ tail). split; [| exact Htrace].
  apply filter_none, Forall_app. split.
  + inversion Hevents as [|? ? _ Hrest']; subst.
    eapply Forall_impl; [exact Hrest' |]. intros e He. apply He.
  + eapply Forall_impl; [exact Htail |]. intros e He. apply He.
- exists (snd (chain api clientId (ms_access_token ms) MC_REFRESH) ++ tail).
  split; [| split; [exact Htrace |]].
  + apply filter_none, Forall_app. split.
    * eapply Forall_impl; [exact Hevents |]. intros e He. apply He.
    * eapply Forall_impl; [exact Htail |]. intros e He. apply He.
  + apply filter_none, Forall_app. split; [exact Hskip |].
    eapply Forall_impl; [exact Htail |]. intros e He. apply He.
Qed.

Local Abbreviation add := (addMicrosoftAccount cm api clientId).

(** The creation of an account, case by case. *)
Lemma addMicrosoftAccount_run (w : World Config) authCode :
add authCode w =
match fst (chain api clientId authCode FULL) with
| inl e =>
    (Rejected e,
     append_events w (EvFlow authCode FULL :: snd (chain api clientId authCode FULL)))
| inr res =>
    match fr_mcProfile res, fr_mcToken res, fr_accessToken res with
    | Some profile, Some token, Some oauth =>
        (Resolved (snd (addMicrosoftAuthAccount cm
                          (profile_id profile) (mc_access_token token)
                          (profile_name profile)
                          (calculateExpiryDate (clock w) (mc_expires_in token))
                          (access_token oauth) (refresh_token oauth)
                          (calculateExpiryDate (clock w) (expires_in oauth))
                          (config w))),
         {| config := save cm (apply_write cm
                                 (creation_write (clock w) profile token oauth)
                                 (config w));
            clock := clock w;
            trace := trace w ++
              (EvFlow authCode FULL :: snd (chain api clientId authCode FULL)) ++
              [creation_write (clock w) profile token oauth; EvSave] |})
    | None, _, _ =>
        (Rejected (TypeError "id"),
         append_events w (EvFlow authCode FULL :: snd (chain api clientId authCode FULL)))
    | _, _, _ =>
        (Rejected (TypeError "access_token"),
         append_events w (EvFlow authCode FULL :: snd (chain api clientId authCode FULL)))
    end
end.
Proof.
unfold addMicrosoftAccount, creation_write. unfold_js.
rewrite fullMicrosoftAuthFlow_chain.
destruct (fst (chain api clientId authCode FULL)) as [e|res]; simpl;
  [reflexivity |].
destruct (fr_mcProfile res) as [profile|]; simpl; [| reflexivity].
destruct (fr_mcToken res) as [token|]; simpl; [| reflexivity].
destruct (fr_accessToken res) as [oauth|]; simpl; [| reflexivity].
destruct (addMicrosoftAuthAccount cm _ _ _ _ _ _ _ _) as [c a] eqn:Hadd.
simpl. rewrite <- !app_assoc. reflexivity.
Qed.

(** An account was created only from a chain that succeeded and brought a
    profile. *)
Lemma addMicrosoftAccount_resolved (w : World Config) authCode acct :
fst (add authCode w) = Resolved acct ->
exists res profile token oauth,
  fst (chain api clientId authCode FULL) = inr res /\
  fr_mcProfile res = Some profile /\
  fr_mcToken res = Some token /\
  fr_accessToken res = Some oauth.
Proof.
rewrite addMicrosoftAccount_run.
destruct (fst (chain api clientId authCode FULL)) as [e|res]; simpl;
  [discriminate |].
destruct (fr_mcProfile res) as [profile|] eqn:Hprofile; simpl; [| discriminate].
destruct (fr_mcToken res) as [token|] eqn:Htoken; simpl; [| discriminate].
destruct (fr_accessToken res) as [oauth|] eqn:Hoauth; simpl; [| discriminate].
intros _. exists res, profile, token, oauth. auto.
Qed.

(** C9: each of the three operations that write a Microsoft record hands
    the store expiries that come from [calculateExpiryDate], applied to the
    reading of the clock and to the lifetime that the provider reported in
    this very flow.  The creation and the refresh in mode [MS_REFRESH] do
    so for both expiries; the refresh in mode [MC_REFRESH] does so for the
    game-service expiry and hands the stored OAuth expiry back as it
    was. *)
Theorem stored_expiries_are_stamped (w : World Config) :
(forall authCode acct,
   fst (add authCode w) = Resolved acct ->
   exists res profile token oauth,
     fst (flow authCode FULL w) = Resolved res /\
     fr_mcProfile res = Some profile /\
     fr_mcToken res = Some token /\
     fr_accessToken res = Some oauth /\
     snd (add authCode w) =
       {| config :=
            save cm (fst (addMicrosoftAuthAccount cm
                            (profile_id profile) (mc_access_token token)
                            (profile_name profile)
                            (calculateExpiryDate (clock w) (mc_expires_in token))
                            (access_token oauth) (refresh_token oauth)
                            (calculateExpiryDate (clock w) (expires_in oauth))
                            (config w)));
          clock := clock w;
          trace := trace (snd (flow authCode FULL w)) ++
            [EvAddMicrosoftAuthAccount
               (profile_id profile) (mc_access_token token) (profile_name profile)
               (calculateExpiryDate (clock w) (mc_expires_in token))
               (access_token oauth) (refresh_token oauth)
               (calculateExpiryDate (clock w) (expires_in oauth));
             EvSave] |}) /\
(forall current ms res,
   getSelectedAccount cm (config w) = Some current ->
   js_ge (clock w) (expiresAt current) = true ->
   microsoft current = Some ms ->
   fst (flow (refresh_entry (clock w) ms) (refresh_mode (clock w) ms) w)
     = Resolved res ->
   exists token msAccess msRefresh msExpires,
     fr_mcToken res = Some token /\
     (if isExpired (clock w) (expires_at ms)
      then exists oauth,
             fr_accessToken res = Some oauth /\
             msExpires = calculateExpiryDate (clock w) (expires_in oauth)
      else msExpires = expires_at ms) /\
     snd (validate w) =
       {| config :=
            save cm (updateMicrosoftAuthAccount cm
                       (uuid current) (mc_access_token token)
                       msAccess msRefresh msExpires
                       (calculateExpiryDate (clock w) (mc_expires_in token))
                       (config w));
          clock := clock w;
          trace :=
            trace (snd (flow (refresh_entry (clock w) ms)
                          (refresh_mode (clock w) ms) w)) ++
            [EvUpdateMicrosoftAuthAccount
               (uuid current) (mc_access_token token)
               msAccess msRefresh msExpires
               (calculateExpiryDate (clock w) (mc_expires_in token));
             EvSave] |}).
Proof.
split.
- intros authCode acct Hadd.
  destruct (addMicrosoftAccount_resolved w authCode acct Hadd)
    as [res [profile [token [oauth [Hchain [Hprofile [Htoken Hoauth]]]]]]].
  exists res, profile, token, oauth.
  rewrite addMicrosoftAccount_run, fullMicrosoftAuthFlow_chain.
  rewrite Hchain, Hprofile, Htoken, Hoauth. simpl.
  repeat split; try assumption.
  unfold creation_write. simpl. rewrite <- !app_assoc. reflexivity.
- intros current ms res Hsel Hexp Hms.
  rewrite fullMicrosoftAuthFlow_chain. cbn [fst snd].
  destruct (fst (chain api clientId (refresh_entry (clock w) ms)
                   (refresh_mode (clock w) ms))) as [e|res'] eqn:Hchain;
    simpl; [discriminate |].
  intros Hres. injection Hres as ->.
  destruct (validate_refresh_succeeds w current ms res Hsel Hexp Hms Hchain)
    as [token [Htoken Hrun]].
  pose proof (chain_success _ _ _ _ _ Hchain) as [_ Hoauth].
  exists token,
    (ms_access_token (refreshed_state (clock w) ms (fr_accessToken res))),
    (ms_refresh_token (refreshed_state (clock w) ms (fr_accessToken res))),
    (expires_at (refreshed_state (clock w) ms (fr_accessToken res))).
  split; [exact Htoken |].
  split.
  + revert Hoauth. unfold refresh_mode.
    destruct (isExpired (clock w) (expires_at ms)).
    * intros [oauth Hoauth]. exists oauth. rewrite Hoauth. auto.
    * intros Hoauth. rewrite Hoauth. reflexivity.
  + rewrite Hrun. unfold refresh_update. simpl.
    rewrite <- !app_assoc. reflexivity.
Qed.

(** C8, as amended: an account created by a successful [FULL] flow
    validates as true, with no call at all, at every instant before its
    stamped game-service expiry; that covers the instant of its creation
    whenever the reported lifetime of the game-service token is above the
    margin of 10 seconds. *)
Theorem created_account_validates (w : World Config) authCode acct :
selects_added_account cm ->
fst (add authCode w) = Resolved acct ->
exists res token,
  fst (flow authCode FULL w) = Resolved res /\
  fr_mcToken res = Some token /\
  (forall t,
     t < calculateExpiryDate (clock w) (mc_expires_in token) ->
     validate (at_time t (snd (add authCode w))) =
       (Resolved (JsBool true), at_time t (snd (add authCode w)))) /\
  (marginSeconds < mc_expires_in token ->
   validate (snd (add authCode w)) =
     (Resolved (JsBool true), snd (add authCode w))).
Proof.
intros Hstore Hadd.
destruct (addMicrosoftAccount_resolved w authCode acct Hadd)
  as [res [profile [token [oauth [Hchain [Hprofile [Htoken Hoauth]]]]]]].
exists res, token.
rewrite fullMicrosoftAuthFlow_chain, addMicrosoftAccount_run.
rewrite Hchain, Hprofile, Htoken, Hoauth. cbn [fst snd settle].
destruct (Hstore (profile_id profile) (mc_access_token token) (profile_name profile)
            (calculateExpiryDate (clock w) (mc_expires_in token))
            (access_token oauth) (refresh_token oauth)
            (calculateExpiryDate (clock w) (expires_in oauth)) (config w))
  as [sel [Hsel Hexpiry]].
assert (Hfast : forall t,
          t < calculateExpiryDate (clock w) (mc_expires_in token) ->
          forall w', config w' = save cm (apply_write cm
                       (creation_write (clock w) profile token oauth) (config w)) ->
                     clock w' = t ->
                     validate w' = (Resolved (JsBool true), w')).
{ intros t Ht w' Hconfig Hclock.
  apply validate_fresh with (current := sel).
  - rewrite Hconfig. exact Hsel.
  - rewrite Hexpiry, Hclock. simpl. apply Z.leb_gt. exact Ht. }
repeat split.
- intros t Ht. apply (Hfast t Ht); reflexivity.
- intros Hlife. apply (Hfast (clock w)); try reflexivity.
  unfold calculateExpiryDate, marginSeconds in *. lia.
Qed.
End Validation.

(** ** Password accounts and the dispatch *)

Section Password.
Context {Config : Type}.
Variable cm : ConfigManagerApi Config.
Variable sc : Scope Config.

(** C10: when the validate call of the session service comes back with a
    status other than [SUCCESS], the validator of password accounts
    resolves with [undefined]: neither [true] nor [false].  The validate
    call is the only call it made; there is no refresh and no write. *)
Theorem validateSelectedMojangAccount_falls_through
  (w : World Config) mojang current response :
scope_MojangRestAPI sc = Some mojang ->
getSelectedAccount cm (config w) = Some current ->
validate mojang (accessToken current) (getClientToken cm (config w))
  = Resolved response ->
mj_responseStatus response <> SUCCESS ->
validateSelectedMojangAccount cm sc w =
(Resolved JsUndefined,
 append_events w [EvValidate (accessToken current) (getClientToken cm (config w))]).
Proof.
intros Hscope Hsel Hreply Hstatus.
unfold validateSelectedMojangAccount, append_events. unfold_js.
rewrite Hsel, Hscope. simpl. rewrite Hreply. simpl.
destruct (mj_responseStatus response); [congruence | reflexivity].
Qed.

(** Where the scope has no [MojangRestAPI], as in the module itself, the
    validator of password accounts ends on the reference, before any
    call. *)
Lemma validateSelectedMojangAccount_unbound (w : World Config) :
scope_MojangRestAPI sc = None ->
validateSelectedMojangAccount cm sc w = (Rejected (ReferenceError "MojangRestAPI"), w).
Proof.
intros Hscope. unfold validateSelectedMojangAccount. unfold_js.
rewrite Hscope. reflexivity.
Qed.

Variable api : MicrosoftAuthApi.
Variable clientId : string.

(** A Microsoft account goes to the validator of Microsoft accounts. *)
Lemma validateSelected_microsoft (w : World Config) current :
getSelectedAccount cm (config w) = Some current ->
type current = "microsoft"%string ->
validateSelected cm api clientId sc w =
validateSelectedMicrosoftAccount cm api clientId w.
Proof.
intros Hsel Htype. unfold validateSelected.
cbv beta iota delta [async await bind store_get deref ret].
rewrite Hsel, Htype. simpl.
destruct (validateSelectedMicrosoftAccount cm api clientId w) as [[v|e] w'];
  reflexivity.
Qed.

(** Any other account goes to [validateSelectedGalaxyquestAccount], a name
    that the module does not define: the validation is rejected at the
    reference, and [validateSelectedMojangAccount] is not run. *)
Lemma validateSelected_other (w : World Config) current :
getSelectedAccount cm (config w) = Some current ->
type current <> "microsoft"%string ->
scope_validateSelectedGalaxyquestAccount sc = None ->
validateSelected cm api clientId sc w =
(Rejected (ReferenceError "validateSelectedGalaxyquestAccount"), w).
Proof.
intros Hsel Htype Hscope. unfold validateSelected. unfold_js.
rewrite Hsel. simpl.
apply String.eqb_neq in Htype. rewrite Htype, Hscope. reflexivity.
Qed.

Variable client : AuthClientApi.

(** Whatever the scope and the login service: when the first login is
    answered with a pending second factor, the second login carries the
    empty string as its code. *)
Lemma addGalaxyQuestAccount_second_call (w : World Config) user password result :
login client user password None = Resolved result ->
status result = "pending"%string ->
requires2fa result = true ->
exists rest,
  trace (snd (addGalaxyQuestAccount cm client sc user password w)) =
  trace w ++ EvLogin user password None
             :: EvLogin user password (Some EmptyString) :: rest.
Proof.
intros Hfirst Hstatus Hfactor.
unfold addGalaxyQuestAccount, eval_mojangErrorDisplayable. unfold_js.
rewrite Hfirst. simpl. rewrite Hstatus, Hfactor. simpl.
destruct (login client user password (Some EmptyString)) as [second|e]; simpl.
- destruct (negb (String.eqb (status second) "success")); simpl.
  + destruct (scope_mojangErrorDisplayable sc), (scope_MojangErrorCode sc); simpl;
      rewrite <- !app_assoc; eexists; reflexivity.
  + destruct (addGalaxyQuestAuthAccount cm _ _ _ _ _) as [c a]. simpl.
    destruct (getClientToken cm c); simpl;
      rewrite <- !app_assoc; eexists; reflexivity.
- destruct (scope_mojangErrorDisplayable sc), (scope_MojangErrorCode sc); simpl;
    rewrite <- !app_assoc; eexists; reflexivity.
Qed.
End Password.

(** ** The properties at work on the example store *)

(** C1 at work: the XSTS endpoint reports an error while the stored OAuth
    token is still valid. *)
Lemma validateSelectedMicrosoftAccount_atomic_witness :
let cm := StoreManager in
let api := provider_without_xbox in
let clientId := client_id in
let w := expired_world 9000 in
let current := microsoft_account 1000 9000 in
let ms := stored_state 9000 in
(getSelectedAccount cm (config w) = Some current) /\
(js_ge (clock w) (expiresAt current) = true) /\
(microsoft current = Some ms) /\
(exists calls,
  snd (fullMicrosoftAuthFlow api clientId (refresh_entry (clock w) ms) (refresh_mode (clock w) ms) w) =
    append_events w calls /\
  Forall (fun e => is_store_write e = false) calls /\
  (Exists (fun e => exchange_error api e <> None) calls ->
   exists err,
     fst (fullMicrosoftAuthFlow api clientId (refresh_entry (clock w) ms) (refresh_mode (clock w) ms) w)
       = Rejected err) /\
  match fst (fullMicrosoftAuthFlow api clientId (refresh_entry (clock w) ms) (refresh_mode (clock w) ms) w) with
  | Rejected _ =>
      validateSelectedMicrosoftAccount cm api clientId w = (Resolved (JsBool false), append_events w calls) /\
      config (snd (validateSelectedMicrosoftAccount cm api clientId w)) = config w /\
      getSelectedAccount cm (config (snd (validateSelectedMicrosoftAccount cm api clientId w))) = Some current
  | Resolved res =>
      exists update,
        is_store_write update = true /\
        validateSelectedMicrosoftAccount cm api clientId w =
          (Resolved (JsBool true),
           {| config := save cm (apply_write cm update (config w));
              clock := clock w;
              trace := trace w ++ calls ++ [update; EvSave] |})
  end).
Proof.
intros cm api clientId w current ms.
repeat (split; [vm_compute; reflexivity |]).
apply (validateSelectedMicrosoftAccount_atomic cm api clientId w current ms); vm_compute; reflexivity.
Defined.

(** C2 at work: the game-service token has expired, the OAuth token has
    not. *)
Lemma validateSelectedMicrosoftAccount_strategy_witness :
let cm := StoreManager in
let api := provider 86400 3600 in
let clientId := client_id in
let w := expired_world 9000 in
let current := microsoft_account 1000 9000 in
let ms := stored_state 9000 in
(getSelectedAccount cm (config w) = Some current) /\
(js_ge (clock w) (expiresAt current) = true) /\
(microsoft current = Some ms) /\
(exists rest,
  List.filter is_flow rest = [] /\
  if isExpired (clock w) (expires_at ms)
  then
    trace (snd (validateSelectedMicrosoftAccount cm api clientId w)) =
      trace w ++ EvFlow (ms_refresh_token ms) MS_REFRESH
                 :: EvGetAccessToken (ms_refresh_token ms) true clientId :: rest
  else
    trace (snd (validateSelectedMicrosoftAccount cm api clientId w)) =
      trace w ++ EvFlow (ms_access_token ms) MC_REFRESH :: rest /\
    List.filter is_oauth rest = []).
Proof.
intros cm api clientId w current ms.
repeat (split; [vm_compute; reflexivity |]).
apply (validateSelectedMicrosoftAccount_strategy cm api clientId w current ms); vm_compute; reflexivity.
Defined.

(** The example store keeps an added account selected, with the expiry it
    was handed. *)
Lemma StoreManager_selects_added : selects_added_account StoreManager.
Proof.
intros k token nm mcExpires msAccess msRefresh msExpires c.
eexists. split.
- simpl. unfold store_getSelectedAccount. simpl. apply lookup_insert_eq.
- reflexivity.
Qed.

(** C8 at work: a game-service token of 86400 seconds. *)
Lemma created_account_validates_witness :
let cm := StoreManager in
let api := provider 86400 3600 in
let clientId := client_id in
let w := first_run in
let authCode := "auth-code"%string in
let acct := created_account in
(selects_added_account cm) /\
(fst (addMicrosoftAccount cm api clientId authCode w) = Resolved acct) /\
(exists res token,
  fst (fullMicrosoftAuthFlow api clientId authCode FULL w) = Resolved res /\
  fr_mcToken res = Some token /\
  (forall t,
     t < calculateExpiryDate (clock w) (mc_expires_in token) ->
     validateSelectedMicrosoftAccount cm api clientId (at_time t (snd (addMicrosoftAccount cm api clientId authCode w))) =
       (Resolved (JsBool true), at_time t (snd (addMicrosoftAccount cm api clientId authCode w)))) /\
  (marginSeconds < mc_expires_in token ->
   validateSelectedMicrosoftAccount cm api clientId (snd (addMicrosoftAccount cm api clientId authCode w)) =
     (Resolved (JsBool true), snd (addMicrosoftAccount cm api clientId authCode w)))).
Proof.
intros cm api clientId w authCode acct.
split; [exact StoreManager_selects_added |].
split; [vm_compute; reflexivity |].
apply (created_account_validates cm api clientId w authCode acct);
  [exact StoreManager_selects_added | vm_compute; reflexivity].
Defined.

(** C8, as stated, fails: the provider reports a lifetime of 10 seconds for
    the game-service token, the account is created at instant 5000 with
    the expiry [5000 + (10 - 10) * 1000], and the validation that follows
    at the same instant finds [5000 >= 5000]: it does not take the fast
    path but runs the chain in mode [MC_REFRESH], four exchanges with the
    provider. *)
Lemma short_lived_token_is_refreshed_at_once :
let created :=
  addMicrosoftAccount StoreManager (provider 10 3600) client_id "auth-code" first_run in
let validated :=
  validateSelectedMicrosoftAccount StoreManager (provider 10 3600) client_id
    (snd created) in
(exists acct, fst created = Resolved acct /\ expiresAt acct = Some (clock first_run)) /\
validated <> (Resolved (JsBool true), snd created) /\
trace (snd validated) =
  trace (snd created) ++
  [EvFlow "ms-access" MC_REFRESH;
   EvGetXBLToken "ms-access";
   EvGetXSTSToken (Some {| xbl_token := "xbl" |});
   EvGetMCAccessToken (Some {| xsts_token := "xsts" |});
   EvGetMCProfile "mc-access";
   EvUpdateMicrosoftAuthAccount "player-1" "mc-access" "ms-access" "ms-refresh"
     3595000 5000;
   EvSave].
Proof.
intros created validated.
split; [eexists; split; vm_compute; reflexivity |].
split; [| vm_compute; reflexivity].
intros H. apply (f_equal (fun r => length (trace (snd r)))) in H.
vm_compute in H. discriminate H.
Qed.

(** C9 at work: the creation of an account, and a refresh in mode
    [MC_REFRESH]. *)
Lemma stored_expiries_are_stamped_witness :
let cm := StoreManager in
let api := provider 86400 3600 in
let clientId := client_id in
(let w := first_run in
 let authCode := "auth-code"%string in
 let acct := created_account in
 (fst (addMicrosoftAccount cm api clientId authCode w) = Resolved acct) /\
 (exists res profile token oauth,
     fst (fullMicrosoftAuthFlow api clientId authCode FULL w) = Resolved res /\
     fr_mcProfile res = Some profile /\
     fr_mcToken res = Some token /\
     fr_accessToken res = Some oauth /\
     snd (addMicrosoftAccount cm api clientId authCode w) =
       {| config :=
            save cm (fst (addMicrosoftAuthAccount cm
                            (profile_id profile) (mc_access_token token)
                            (profile_name profile)
                            (calculateExpiryDate (clock w) (mc_expires_in token))
                            (access_token oauth) (refresh_token oauth)
                            (calculateExpiryDate (clock w) (expires_in oauth))
                            (config w)));
          clock := clock w;
          trace := trace (snd (fullMicrosoftAuthFlow api clientId authCode FULL w)) ++
            [EvAddMicrosoftAuthAccount
               (profile_id profile) (mc_access_token token) (profile_name profile)
               (calculateExpiryDate (clock w) (mc_expires_in token))
               (access_token oauth) (refresh_token oauth)
               (calculateExpiryDate (clock w) (expires_in oauth));
             EvSave] |})) /\
(let w := expired_world 9000 in
 let current := microsoft_account 1000 9000 in
 let ms := stored_state 9000 in
 let res :=
   {| fr_accessToken := None;
      fr_accessTokenRaw := "old-ms-access";
      fr_xbl := Some {| xbl_token := "xbl" |};
      fr_xsts := Some {| xsts_token := "xsts" |};
      fr_mcToken := Some {| mc_access_token := "mc-access"; mc_expires_in := 86400 |};
      fr_mcProfile := Some {| profile_id := "player-1"; profile_name := "Player" |} |} in
 (getSelectedAccount cm (config w) = Some current) /\
 (js_ge (clock w) (expiresAt current) = true) /\
 (microsoft current = Some ms) /\
 (fst (fullMicrosoftAuthFlow api clientId (refresh_entry (clock w) ms) (refresh_mode (clock w) ms) w)
     = Resolved res) /\
 (exists token msAccess msRefresh msExpires,
     fr_mcToken res = Some token /\
     (if isExpired (clock w) (expires_at ms)
      then exists oauth,
             fr_accessToken res = Some oauth /\
             msExpires = calculateExpiryDate (clock w) (expires_in oauth)
      else msExpires = expires_at ms) /\
     snd (validateSelectedMicrosoftAccount cm api clientId w) =
       {| config :=
            save cm (updateMicrosoftAuthAccount cm
                       (uuid current) (mc_access_token token)
                       msAccess msRefresh msExpires
                       (calculateExpiryDate (clock w) (mc_expires_in token))
                       (config w));
          clock := clock w;
          trace :=
            trace (snd (fullMicrosoftAuthFlow api clientId (refresh_entry (clock w) ms)
                          (refresh_mode (clock w) ms) w)) ++
            [EvUpdateMicrosoftAuthAccount
               (uuid current) (mc_access_token token)
               msAccess msRefresh msExpires
               (calculateExpiryDate (clock w) (mc_expires_in token));
             EvSave] |})).
Proof.
intros cm api clientId. split.
- intros w authCode acct.
  split; [vm_compute; reflexivity |].
  apply (proj1 (stored_expiries_are_stamped cm api clientId w) authCode acct).
  vm_compute; reflexivity.
- intros w current ms res.
  repeat (split; [vm_compute; reflexivity |]).
  apply (proj2 (stored_expiries_are_stamped cm api clientId w) current ms res);
    vm_compute; reflexivity.
Defined.

(** C10 at work: a session service that answers with a failure, in a scope
    that binds [MojangRestAPI]. *)
Lemma validateSelectedMojangAccount_falls_through_witness :
let cm := StoreManager in
let sc := scope_with_mojang unreachable_mojang in
let w := password_world in
let mojang := unreachable_mojang in
let current := password_account in
let response := failure_response in
(scope_MojangRestAPI sc = Some mojang) /\
(getSelectedAccount cm (config w) = Some current) /\
(validate mojang (accessToken current) (getClientToken cm (config w))
   = Resolved response) /\
(mj_responseStatus response <> SUCCESS) /\
(validateSelectedMojangAccount cm sc w =
 (Resolved JsUndefined,
  append_events w [EvValidate (accessToken current) (getClientToken cm (config w))])).
Proof.
intros cm sc w mojang current response.
repeat (split; [vm_compute; reflexivity |]).
split; [discriminate |].
apply (validateSelectedMojangAccount_falls_through cm sc w mojang current response);
  [vm_compute; reflexivity .. | discriminate].
Defined.

(** In the scope of the module itself the same validation ends on the
    reference to [MojangRestAPI]. *)
Example validateSelectedMojangAccount_in_module_scope :
validateSelectedMojangAccount StoreManager (module_scope Store) password_world =
(Rejected (ReferenceError "MojangRestAPI"), password_world).
Proof. reflexivity. Qed.

(** C5: with a password account selected, [validateSelected] does not
    resolve to a boolean: it is rejected with the [ReferenceError] for
    [validateSelectedGalaxyquestAccount], and no validator has run. *)
Theorem validateSelected_password_account_is_rejected :
validateSelected StoreManager (provider 86400 3600) client_id (module_scope Store)
  password_world =
(Rejected (ReferenceError "validateSelectedGalaxyquestAccount"), password_world).
Proof. vm_compute. reflexivity. Qed.

(** A Microsoft account whose token is fresh does resolve to [true]. *)
Example validateSelected_microsoft_account :
validateSelected StoreManager (provider 86400 3600) client_id (module_scope Store)
  (start (store_with created_account) 5000) =
(Resolved (JsBool true), start (store_with created_account) 5000).
Proof. vm_compute. reflexivity. Qed.

(** C4: the login service asks for a second factor and would accept the
    code ["123456"].  [addGalaxyQuestAccount] logs in a second time with
    the empty string as the code, is turned down, and is rejected with the
    [ReferenceError] for [mojangErrorDisplayable]: neither a success nor
    the invalid-credentials error. *)
Theorem addGalaxyQuestAccount_second_factor :
addGalaxyQuestAccount StoreManager second_factor_client (module_scope Store)
  "alice" "secret" first_run =
(Rejected (ReferenceError "mojangErrorDisplayable"),
 append_events first_run
   [EvLogin "alice" "secret" None; EvLogin "alice" "secret" (Some EmptyString)]).
Proof. vm_compute. reflexivity. Qed.

(** Credentials that the service turns down end the same way. *)
Example addGalaxyQuestAccount_refused :
addGalaxyQuestAccount StoreManager refusing_client (module_scope Store)
  "alice" "wrong" first_run =
(Rejected (ReferenceError "mojangErrorDisplayable"),
 append_events first_run [EvLogin "alice" "wrong" None]).
Proof. vm_compute. reflexivity. Qed.

(** With the two names of helios-core/mojang bound, the same refusal is
    rejected with the invalid-credentials error. *)
Example addGalaxyQuestAccount_refused_with_mojang_errors :
addGalaxyQuestAccount StoreManager refusing_client scope_with_mojang_errors
  "alice" "wrong" first_run =
(Rejected (mojangErrorDisplayable ERROR_INVALID_CREDENTIALS),
 append_events first_run [EvLogin "alice" "wrong" None]).
Proof. vm_compute. reflexivity. Qed.

(** The chain at a provider whose XSTS endpoint reports code 3: three
    exchanges, then the rejection with that code. *)
Example fullMicrosoftAuthFlow_without_xbox :
fullMicrosoftAuthFlow provider_without_xbox client_id "auth-code" FULL first_run =
(Rejected (microsoftErrorDisplayable (ProviderCode 3)),
 append_events first_run
   [EvFlow "auth-code" FULL;
    EvGetAccessToken "auth-code" false client_id;
    EvGetXBLToken "ms-access";
    EvGetXSTSToken (Some {| xbl_token := "xbl" |})]).
Proof. vm_compute. reflexivity. Qed.


(** * Further properties *)

(** ** The expiry policy and the check of the validator *)

(** X1: a token stamped at [now] with a lifetime counts as expired at the
    instant [t] exactly when the time gone by since [now] has reached the
    lifetime less the margin, in milliseconds. *)
Theorem stamped_expiry_window (now lifetime t : Z) :
js_ge t (Some (calculateExpiryDate now lifetime)) =
(secondsToMs (lifetime - marginSeconds) <=? t - now).
Proof.
unfold js_ge, calculateExpiryDate, secondsToMs, marginSeconds.
destruct (Z.leb_spec ((lifetime - 10) * 1000) (t - now));
  [apply Z.leb_le | apply Z.leb_gt]; lia.
Qed.

(** X2: the expiry follows the reading of the clock one for one and the
    lifetime by a thousand for each second, so a later reading or a longer
    lifetime never gives an earlier expiry. *)
Theorem calculateExpiryDate_shift (now lifetime delay extension : Z) :
calculateExpiryDate (now + delay) (lifetime + extension) =
  calculateExpiryDate now lifetime + delay + secondsToMs extension /\
(0 <= delay -> 0 <= extension ->
 calculateExpiryDate now lifetime <=
 calculateExpiryDate (now + delay) (lifetime + extension)).
Proof.
unfold calculateExpiryDate, secondsToMs. split; [| intros]; lia.
Qed.

Lemma calculateExpiryDate_shift_witness :
0 <= 250 /\ 0 <= 60 /\
calculateExpiryDate 1000 3600 <= calculateExpiryDate (1000 + 250) (3600 + 60).
Proof.
split; [lia |]. split; [lia |].
apply (proj2 (calculateExpiryDate_shift 1000 3600 250 60)); lia.
Defined.

(** ** Removal of accounts *)

Section RemovalProperties.
Context {Config : Type}.
Variable cm : ConfigManagerApi Config.
Variable rm : ConfigManagerRemovalApi Config.

(** X3: [removeMicrosoftAccount] calls [save] after [removeAuthAccount]
    has returned, once, on the store that the removal left; no provider is
    contacted.  When [removeAuthAccount] throws, the promise is rejected
    with the very error that was thrown, [save] is not called, and the
    store stays as the failed removal left it. *)
Theorem removeMicrosoftAccount_removal_then_save (w : World Config) k :
match removeAuthAccount rm k (config w) with
| (c, None) =>
    snd (removeMicrosoftAccount cm rm k w) =
    {| config := save cm c; clock := clock w; trace := trace w ++ [EvSave] |}
| (c, Some e) =>
    removeMicrosoftAccount cm rm k w =
    (Rejected e, {| config := c; clock := clock w; trace := trace w |})
end.
Proof.
unfold removeMicrosoftAccount, store_change. unfold_js.
destruct (removeAuthAccount rm k (config w)) as [c [e|]]; reflexivity.
Qed.

(** X4: [removeGalaxyquestAccount] looks the account up and makes no use of
    it: when the lookup returns, it does what [removeMicrosoftAccount]
    does, so no token is invalidated at the provider; when the lookup
    throws, it is rejected with that error and the removal is not
    attempted. *)
Theorem removeGalaxyquestAccount_lookup_unused (w : World Config) k :
match getAuthAccount rm k (config w) with
| inr _ => removeGalaxyquestAccount cm rm k w = removeMicrosoftAccount cm rm k w
| inl e => removeGalaxyquestAccount cm rm k w = (Rejected e, w)
end.
Proof.
unfold removeGalaxyquestAccount, removeMicrosoftAccount, store_lookup, store_change.
unfold_js.
destruct (getAuthAccount rm k (config w)); [reflexivity |].
destruct (removeAuthAccount rm k (config w)) as [c [e|]]; reflexivity.
Qed.
End RemovalProperties.

(** ** More on the Microsoft chain *)

Section ChainProperties.
Context {Config : Type}.
Variable api : MicrosoftAuthApi.
Variable clientId : string.

Local Abbreviation flow := (fullMicrosoftAuthFlow api clientId).

(** X5: the flow neither reads nor changes the store or the clock: from
    any two worlds it settles the same way after the same exchanges, and
    each world is left with its store and its clock. *)
Theorem fullMicrosoftAuthFlow_world_independent
  entry mode (w1 w2 : World Config) :
fst (flow entry mode w1) = fst (flow entry mode w2) /\
exists calls,
  snd (flow entry mode w1) = append_events w1 (EvFlow entry mode :: calls) /\
  snd (flow entry mode w2) = append_events w2 (EvFlow entry mode :: calls) /\
  Forall (fun e => is_network e = true) calls.
Proof.
rewrite !fullMicrosoftAuthFlow_chain. cbn [fst snd].
split; [reflexivity |].
exists (snd (chain api clientId entry mode)).
repeat split.
eapply Forall_impl; [apply chain_events |]. intros e He. apply He.
Qed.

(** X6: the mode decides what the entry code is taken for.  In mode
    [MC_REFRESH] it goes to the Xbox Live endpoint as the OAuth access
    token; in the two other modes it goes to the OAuth token endpoint, as
    a refresh token in mode [MS_REFRESH] only. *)
Theorem fullMicrosoftAuthFlow_first_exchange entry mode (w : World Config) :
exists rest,
  trace (snd (flow entry mode w)) =
  trace w ++ EvFlow entry mode
             :: match mode with
                | FULL => EvGetAccessToken entry false clientId
                | MS_REFRESH => EvGetAccessToken entry true clientId
                | MC_REFRESH => EvGetXBLToken entry
                end :: rest.
Proof.
rewrite fullMicrosoftAuthFlow_chain. cbn [snd append_events trace].
unfold_chain.
destruct mode; simpl.
all: repeat (destruct_reply; simpl).
all: eexists; reflexivity.
Qed.

(** X7: in every mode, a reply of the Xbox Live endpoint that reports
    success and brings no payload is not held back: the XSTS endpoint is
    asked next, with nothing to exchange.  The Xbox Live endpoint is
    reached with the entry code in mode [MC_REFRESH] and with the access
    token of the OAuth pair in the two other modes. *)
Theorem fullMicrosoftAuthFlow_missing_xbl_payload
  entry mode (w : World Config) raw response :
match mode with
| MC_REFRESH => raw = entry
| _ =>
    exists oauth,
      reply_error (getAccessToken api entry (mode_eqb mode MS_REFRESH) clientId)
        = None /\
      reply_data (getAccessToken api entry (mode_eqb mode MS_REFRESH) clientId)
        = Some oauth /\
      raw = access_token oauth
end ->
getXBLToken api raw = Resolved response ->
responseStatus response = SUCCESS ->
data response = None ->
exists rest,
  trace (snd (flow entry mode w)) =
  trace w ++ EvFlow entry mode
             :: match mode with
                | MC_REFRESH => []
                | _ => [EvGetAccessToken entry (mode_eqb mode MS_REFRESH) clientId]
                end
             ++ EvGetXBLToken raw :: EvGetXSTSToken None :: rest.
Proof.
intros Hraw Hreply Hstatus Hdata.
rewrite fullMicrosoftAuthFlow_chain. cbn [snd append_events trace].
revert Hraw. unfold_chain. unfold reply_error, reply_data.
destruct mode; simpl.
1, 2: destruct (getAccessToken api entry _ clientId) as [[[|] [pair|] code]|err];
  simpl; intros [oauth [Herror [Hpayload ->]]]; try discriminate;
  injection Hpayload as ->.
3: intros ->.
all: rewrite Hreply; simpl; rewrite Hstatus, Hdata; simpl.
all: repeat (destruct_reply; simpl).
all: eexists; reflexivity.
Qed.
End ChainProperties.

(** X7 at work: the creation of an account. *)
Lemma fullMicrosoftAuthFlow_missing_xbl_payload_witness :
let api := provider_without_xbl_payload in
let clientId := client_id in
let entry := "auth-code"%string in
let mode := FULL in
let w := first_run in
let raw := "ms-access"%string in
let response :=
  {| responseStatus := SUCCESS; data := @None XblData;
     microsoftErrorCode := UNKNOWN |} in
(exists oauth,
   reply_error (getAccessToken api entry (mode_eqb mode MS_REFRESH) clientId)
     = None /\
   reply_data (getAccessToken api entry (mode_eqb mode MS_REFRESH) clientId)
     = Some oauth /\
   raw = access_token oauth) /\
(getXBLToken api raw = Resolved response) /\
(responseStatus response = SUCCESS) /\
(data response = None) /\
(exists rest,
  trace (snd (fullMicrosoftAuthFlow api clientId entry mode w)) =
  trace w ++ EvFlow entry mode
             :: [EvGetAccessToken entry (mode_eqb mode MS_REFRESH) clientId]
             ++ EvGetXBLToken raw :: EvGetXSTSToken None :: rest).
Proof.
intros api clientId entry mode w raw response.
assert (Hraw : exists oauth,
          reply_error (getAccessToken api entry (mode_eqb mode MS_REFRESH) clientId)
            = None /\
          reply_data (getAccessToken api entry (mode_eqb mode MS_REFRESH) clientId)
            = Some oauth /\
          raw = access_token oauth).
{ eexists. repeat split; vm_compute; reflexivity. }
split; [exact Hraw |].
repeat (split; [vm_compute; reflexivity |]).
apply (fullMicrosoftAuthFlow_missing_xbl_payload api clientId entry mode w raw response);
  [exact Hraw | vm_compute; reflexivity ..].
Defined.

(** ** More on Microsoft accounts *)

Section MicrosoftProperties.
Context {Config : Type}.
Variable cm : ConfigManagerApi Config.
Variable api : MicrosoftAuthApi.
Variable clientId : string.

Local Abbreviation validate := (validateSelectedMicrosoftAccount cm api clientId).
Local Abbreviation flow := (fullMicrosoftAuthFlow api clientId).
Local Abbreviation add := (addMicrosoftAccount cm api clientId).

(** X8: a flow that is rejected never reaches the store: the promise of
    [addMicrosoftAccount] is rejected with the error of the flow,
    unchanged, and the world is the one the flow left, in which the store
    is as it was and no write or save is recorded.  The same holds, with
    the [TypeError] of reading the id, when the flow resolves without a
    profile. *)
Theorem addMicrosoftAccount_failed_flow (w : World Config) authCode :
(forall e,
   fst (flow authCode FULL w) = Rejected e ->
   add authCode w = (Rejected e, snd (flow authCode FULL w))) /\
(forall res,
   fst (flow authCode FULL w) = Resolved res ->
   fr_mcProfile res = None ->
   add authCode w = (Rejected (TypeError "id"), snd (flow authCode FULL w))) /\
exists calls,
  snd (flow authCode FULL w) = append_events w calls /\
  Forall (fun ev => is_store_write ev = false) calls.
Proof.
rewrite addMicrosoftAccount_run, fullMicrosoftAuthFlow_chain. cbn [fst snd].
split; [| split].
- intros e Hflow.
  destruct (fst (chain api clientId authCode FULL)) as [e'|res]; simpl in Hflow;
    [| discriminate Hflow].
  injection Hflow as ->. reflexivity.
- intros res Hflow Hprofile.
  destruct (fst (chain api clientId authCode FULL)) as [e'|res']; simpl in Hflow;
    [discriminate Hflow |].
  injection Hflow as ->. rewrite Hprofile. reflexivity.
- exists (EvFlow authCode FULL :: snd (chain api clientId authCode FULL)).
  split; [reflexivity |].
  constructor; [reflexivity |].
  eapply Forall_impl; [apply chain_events |]. intros ev Hev. apply Hev.
Qed.

(** X9: when [addMicrosoftAccount] resolves, its value is the record that
    the store returned for the id and the name of the fetched profile and
    the game-service token of this flow, and the flow was entered once, in
    mode [FULL], with the code handed to the OAuth token endpoint as an
    authorization code. *)
Theorem addMicrosoftAccount_resolved_value (w : World Config) authCode acct :
fst (add authCode w) = Resolved acct ->
exists res profile token oauth rest,
  fst (flow authCode FULL w) = Resolved res /\
  fr_mcProfile res = Some profile /\
  fr_mcToken res = Some token /\
  fr_accessToken res = Some oauth /\
  acct = snd (addMicrosoftAuthAccount cm
                (profile_id profile) (mc_access_token token) (profile_name profile)
                (calculateExpiryDate (clock w) (mc_expires_in token))
                (access_token oauth) (refresh_token oauth)
                (calculateExpiryDate (clock w) (expires_in oauth))
                (config w)) /\
  trace (snd (add authCode w)) =
    trace w ++ EvFlow authCode FULL
               :: EvGetAccessToken authCode false clientId :: rest /\
  List.filter is_flow rest = [].
Proof.
intros Hadd.
destruct (addMicrosoftAccount_resolved cm api clientId w authCode acct Hadd)
  as [res [profile [token [oauth [Hchain [Hprofile [Htoken Hoauth]]]]]]].
destruct (chain_oauth_first api clientId authCode FULL) as [rest Hrest];
  [discriminate |].
pose proof (chain_events api clientId authCode FULL) as Hevents.
exists res, profile, token, oauth,
  (rest ++ [creation_write (clock w) profile token oauth; EvSave]).
revert Hadd.
rewrite addMicrosoftAccount_run, fullMicrosoftAuthFlow_chain.
rewrite Hchain, Hprofile, Htoken, Hoauth. cbn [fst snd settle trace].
intros Hadd. injection Hadd as <-.
rewrite Hrest in *. simpl.
repeat split.
apply filter_none, Forall_app. split.
- inversion Hevents as [|? ? _ Htail]; subst.
  eapply Forall_impl; [exact Htail |]. intros ev Hev. apply Hev.
- repeat constructor.
Qed.

(** X10: with an account selected, a validation resolves to [true] and
    leaves the world as it found it, not one call made, exactly when the
    game-service token has not expired; a record without [expiresAt]
    counts as not expired. *)
Theorem validate_free_iff_not_expired (w : World Config) current :
getSelectedAccount cm (config w) = Some current ->
(validate w = (Resolved (JsBool true), w) <->
 js_ge (clock w) (expiresAt current) = false).
Proof.
intros Hsel. split; [| apply validate_fresh; exact Hsel].
intros Hrun.
destruct (js_ge (clock w) (expiresAt current)) eqn:Hexp; [exfalso | reflexivity].
destruct (microsoft current) as [ms|] eqn:Hms.
- destruct (fst (chain api clientId (refresh_entry (clock w) ms)
                   (refresh_mode (clock w) ms))) as [e|res] eqn:Hchain.
  + rewrite (validate_refresh_fails cm api clientId w current ms e
               Hsel Hexp Hms Hchain) in Hrun.
    discriminate Hrun.
  + destruct (validate_refresh_succeeds cm api clientId w current ms res
                Hsel Hexp Hms Hchain) as [token [_ Hrun']].
    rewrite Hrun' in Hrun. injection Hrun as Hworld.
    apply (f_equal (fun x => length (trace x))) in Hworld.
    simpl in Hworld. rewrite !length_app in Hworld. simpl in Hworld. lia.
- revert Hrun. unfold validateSelectedMicrosoftAccount. unfold_js.
  rewrite Hsel. simpl. rewrite Hexp. simpl. rewrite Hms. simpl.
  discriminate.
Qed.

(** X11: a validation that finds no selected account, or a selected record
    whose token has expired and that carries no Microsoft state, is
    rejected with a [TypeError]: it does not resolve to [false].  No call
    is made and nothing is written. *)
Theorem validate_without_record (w : World Config) :
getSelectedAccount cm (config w) = None \/
(exists current,
   getSelectedAccount cm (config w) = Some current /\
   js_ge (clock w) (expiresAt current) = true /\
   microsoft current = None) ->
exists property, validate w = (Rejected (TypeError property), w).
Proof.
unfold validateSelectedMicrosoftAccount. unfold_js.
intros [Hsel | [current [Hsel [Hexp Hms]]]]; rewrite Hsel; simpl.
- eexists; reflexivity.
- rewrite Hexp. simpl. rewrite Hms. simpl. eexists; reflexivity.
Qed.

(** X12: a refresh that succeeds updates the record under the uuid of the
    selected account with the fresh game-service token.  In mode
    [MS_REFRESH] it hands the store the OAuth pair that the flow derived;
    in mode [MC_REFRESH] it hands back the stored OAuth tokens. *)
Theorem validate_refresh_tokens (w : World Config) current ms res :
getSelectedAccount cm (config w) = Some current ->
js_ge (clock w) (expiresAt current) = true ->
microsoft current = Some ms ->
fst (flow (refresh_entry (clock w) ms) (refresh_mode (clock w) ms) w)
  = Resolved res ->
exists token msExpires mcExpires,
  fr_mcToken res = Some token /\
  if isExpired (clock w) (expires_at ms)
  then
    exists oauth,
      fr_accessToken res = Some oauth /\
      trace (snd (validate w)) =
        trace (snd (flow (ms_refresh_token ms) MS_REFRESH w)) ++
        [EvUpdateMicrosoftAuthAccount (uuid current) (mc_access_token token)
           (access_token oauth) (refresh_token oauth) msExpires mcExpires;
         EvSave]
  else
    trace (snd (validate w)) =
      trace (snd (flow (ms_access_token ms) MC_REFRESH w)) ++
      [EvUpdateMicrosoftAuthAccount (uuid current) (mc_access_token token)
         (ms_access_token ms) (ms_refresh_token ms) msExpires mcExpires;
       EvSave].
Proof.
intros Hsel Hexp Hms.
rewrite fullMicrosoftAuthFlow_chain. cbn [fst].
destruct (fst (chain api clientId (refresh_entry (clock w) ms)
                 (refresh_mode (clock w) ms))) as [e|res'] eqn:Hchain;
  simpl; [discriminate |].
intros Hres. injection Hres as ->.
destruct (validate_refresh_succeeds cm api clientId w current ms res
            Hsel Hexp Hms Hchain) as [token [Htoken Hrun]].
pose proof (chain_success api clientId _ _ _ Hchain) as [_ Hoauth].
exists token,
  (expires_at (refreshed_state (clock w) ms (fr_accessToken res))),
  (calculateExpiryDate (clock w) (mc_expires_in token)).
split; [exact Htoken |].
rewrite Hrun. clear Hrun. revert Hchain Hoauth.
unfold refresh_update, refresh_entry, refresh_mode.
destruct (isExpired (clock w) (expires_at ms)); intros Hchain Hoauth.
- destruct Hoauth as [oauth Hoauth]. exists oauth.
  split; [exact Hoauth |].
  rewrite fullMicrosoftAuthFlow_chain, Hoauth. simpl.
  rewrite <- !app_assoc. reflexivity.
- rewrite fullMicrosoftAuthFlow_chain, Hoauth. simpl.
  rewrite <- !app_assoc. reflexivity.
Qed.

(** X13: a validation that has just refreshed the token is followed, at
    the same reading of the clock, by a validation that makes no call,
    provided the store serves the refreshed record with the expiry it was
    handed and the reported lifetime is above the margin. *)
Theorem validate_after_refresh (w : World Config) current ms res token refreshed :
getSelectedAccount cm (config w) = Some current ->
js_ge (clock w) (expiresAt current) = true ->
microsoft current = Some ms ->
fst (flow (refresh_entry (clock w) ms) (refresh_mode (clock w) ms) w)
  = Resolved res ->
fr_mcToken res = Some token ->
getSelectedAccount cm (config (snd (validate w))) = Some refreshed ->
expiresAt refreshed = Some (calculateExpiryDate (clock w) (mc_expires_in token)) ->
marginSeconds < mc_expires_in token ->
fst (validate w) = Resolved (JsBool true) /\
validate (snd (validate w)) = (Resolved (JsBool true), snd (validate w)).
Proof.
intros Hsel Hexp Hms.
rewrite fullMicrosoftAuthFlow_chain. cbn [fst].
destruct (fst (chain api clientId (refresh_entry (clock w) ms)
                 (refresh_mode (clock w) ms))) as [e|res'] eqn:Hchain;
  simpl; [discriminate |].
intros Hres Htoken. injection Hres as ->.
destruct (validate_refresh_succeeds cm api clientId w current ms res
            Hsel Hexp Hms Hchain) as [token' [Htoken' Hrun]].
rewrite Hrun. cbn [fst snd].
intros Hsel' Hexpiry Hlife. split; [reflexivity |].
apply validate_fresh with (current := refreshed); [exact Hsel' |].
rewrite Hexpiry. cbn [clock js_ge]. apply Z.leb_gt.
unfold calculateExpiryDate, marginSeconds in *. lia.
Qed.
End MicrosoftProperties.

(** ** The validator of password accounts *)

Section MojangProperties.
Context {Config : Type}.
Variable cm : ConfigManagerApi Config.
Variable sc : Scope Config.

Local Abbreviation validator := (validateSelectedMojangAccount cm sc).

(** X14: when the session service finds the token valid, the validator
    resolves to [true] after that one call; there is no refresh and
    nothing is written. *)
Theorem validateSelectedMojangAccount_valid (w : World Config) mojang current response :
scope_MojangRestAPI sc = Some mojang ->
getSelectedAccount cm (config w) = Some current ->
validate mojang (accessToken current) (getClientToken cm (config w))
  = Resolved response ->
mj_responseStatus response = SUCCESS ->
mj_data response = Some true ->
validator w =
(Resolved (JsBool true),
 append_events w [EvValidate (accessToken current) (getClientToken cm (config w))]).
Proof.
intros Hscope Hsel Hreply Hstatus Hdata.
unfold validateSelectedMojangAccount, append_events. unfold_js.
rewrite Hsel, Hscope. simpl. rewrite Hreply. simpl.
rewrite Hstatus, Hdata. reflexivity.
Qed.

(** X15: when the token is not found valid and the refresh succeeds, the
    validator stores the access token of the new session under the uuid
    of the selected account, saves, and resolves to [true]; there is one
    refresh, made with the old token. *)
Theorem validateSelectedMojangAccount_refreshed
  (w : World Config) mojang current response refreshed session :
scope_MojangRestAPI sc = Some mojang ->
getSelectedAccount cm (config w) = Some current ->
validate mojang (accessToken current) (getClientToken cm (config w))
  = Resolved response ->
mj_responseStatus response = SUCCESS ->
mj_data response <> Some true ->
refresh mojang (accessToken current) (getClientToken cm (config w))
  = Resolved refreshed ->
mj_responseStatus refreshed = SUCCESS ->
mj_data refreshed = Some session ->
validator w =
(Resolved (JsBool true),
 {| config := save cm (updateMojangAuthAccount cm (uuid current)
                         (session_accessToken session) (config w));
    clock := clock w;
    trace := trace w ++
      [EvValidate (accessToken current) (getClientToken cm (config w));
       EvRefresh (accessToken current) (getClientToken cm (config w));
       EvUpdateMojangAuthAccount (uuid current) (session_accessToken session);
       EvSave] |}).
Proof.
intros Hscope Hsel Hreply Hstatus Hdata Hrefresh Hstatus' Hsession.
unfold validateSelectedMojangAccount. unfold_js.
rewrite Hsel, Hscope. simpl. rewrite Hreply. simpl.
rewrite Hstatus. simpl. rewrite bool_decide_eq_false_2 by exact Hdata. simpl.
rewrite Hrefresh. simpl. rewrite Hstatus', Hsession. simpl.
rewrite <- !app_assoc. reflexivity.
Qed.

(** X16: when the token is not found valid and the refresh comes back with
    a status other than [SUCCESS], the validator resolves to [false]; the
    store is as it was and nothing is written. *)
Theorem validateSelectedMojangAccount_refused
  (w : World Config) mojang current response refreshed :
scope_MojangRestAPI sc = Some mojang ->
getSelectedAccount cm (config w) = Some current ->
validate mojang (accessToken current) (getClientToken cm (config w))
  = Resolved response ->
mj_responseStatus response = SUCCESS ->
mj_data response <> Some true ->
refresh mojang (accessToken current) (getClientToken cm (config w))
  = Resolved refreshed ->
mj_responseStatus refreshed <> SUCCESS ->
validator w =
(Resolved (JsBool false),
 append_events w
   [EvValidate (accessToken current) (getClientToken cm (config w));
    EvRefresh (accessToken current) (getClientToken cm (config w))]).
Proof.
intros Hscope Hsel Hreply Hstatus Hdata Hrefresh Hstatus'.
unfold validateSelectedMojangAccount, append_events. unfold_js.
rewrite Hsel, Hscope. simpl. rewrite Hreply. simpl.
rewrite Hstatus. simpl. rewrite bool_decide_eq_false_2 by exact Hdata. simpl.
rewrite Hrefresh. simpl.
destruct (mj_responseStatus refreshed); [congruence |].
simpl. rewrite <- !app_assoc. reflexivity.
Qed.

(** X17: the validator has no [catch]: when the validate call or the
    refresh call rejects, the validator is rejected with that very error,
    and nothing is written. *)
Theorem validateSelectedMojangAccount_rejections
  (w : World Config) mojang current e :
scope_MojangRestAPI sc = Some mojang ->
getSelectedAccount cm (config w) = Some current ->
validate mojang (accessToken current) (getClientToken cm (config w)) = Rejected e \/
(exists response,
   validate mojang (accessToken current) (getClientToken cm (config w))
     = Resolved response /\
   mj_responseStatus response = SUCCESS /\
   mj_data response <> Some true /\
   refresh mojang (accessToken current) (getClientToken cm (config w))
     = Rejected e) ->
exists calls,
  validator w = (Rejected e, append_events w calls) /\
  Forall (fun ev => is_store_write ev = false) calls.
Proof.
intros Hscope Hsel Hcase.
unfold validateSelectedMojangAccount, append_events. unfold_js.
rewrite Hsel, Hscope. simpl.
destruct Hcase as [Hreply | [response [Hreply [Hstatus [Hdata Hrefresh]]]]];
  rewrite Hreply; simpl.
- eexists. split; [reflexivity | repeat constructor].
- rewrite Hstatus. simpl. rewrite bool_decide_eq_false_2 by exact Hdata. simpl.
  rewrite Hrefresh. simpl. rewrite <- !app_assoc.
  eexists. split; [reflexivity | repeat constructor].
Qed.
End MojangProperties.

(** ** The password login *)

Section LoginProperties.
Context {Config : Type}.
Variable cm : ConfigManagerApi Config.
Variable client : AuthClientApi.
Variable sc : Scope Config.

Local Abbreviation register := (addGalaxyQuestAccount cm client sc).

(** The login, case by case on the deciding reply. *)
Lemma addGalaxyQuestAccount_run (w : World Config) user password :
register user password w =
match final_login client user password with
| Resolved result =>
    if String.eqb (status result) "success"
    then (Resolved (snd (addGalaxyQuestAuthAccount cm
                           (lr_uuid result) (lr_accessToken result)
                           (lr_username result) (lr_username result) (config w))),
          stored_login cm result
            (append_events w (login_events client user password)))
    else (Rejected (login_rejection sc ERROR_INVALID_CREDENTIALS),
          append_events w (login_events client user password))
| Rejected _ =>
    (Rejected (login_rejection sc MOJANG_UNKNOWN),
     append_events w (login_events client user password))
end.
Proof.
unfold addGalaxyQuestAccount, final_login, login_events,
  eval_mojangErrorDisplayable, login_rejection, stored_login, append_events.
unfold_js.
destruct (login client user password None) as [first|e]; simpl.
- destruct (String.eqb (status first) "pending" && requires2fa first); simpl.
  + destruct (login client user password (Some EmptyString)) as [second|e]; simpl.
    * destruct (String.eqb (status second) "success"); simpl.
      -- destruct (addGalaxyQuestAuthAccount cm _ _ _ _ _) as [c a]. simpl.
         destruct (getClientToken cm c); simpl; rewrite <- !app_assoc; reflexivity.
      -- destruct (scope_mojangErrorDisplayable sc), (scope_MojangErrorCode sc);
           simpl; rewrite <- !app_assoc; reflexivity.
    * destruct (scope_mojangErrorDisplayable sc), (scope_MojangErrorCode sc);
        simpl; rewrite <- !app_assoc; reflexivity.
  + destruct (String.eqb (status first) "success"); simpl.
    * destruct (addGalaxyQuestAuthAccount cm _ _ _ _ _) as [c a]. simpl.
      destruct (getClientToken cm c); simpl; rewrite <- !app_assoc; reflexivity.
    * destruct (scope_mojangErrorDisplayable sc), (scope_MojangErrorCode sc);
        reflexivity.
- destruct (scope_mojangErrorDisplayable sc), (scope_MojangErrorCode sc);
    reflexivity.
Qed.

Lemma login_events_are_logins user password :
Forall (fun ev => is_login ev = true /\ is_store_write ev = false)
  (login_events client user password).
Proof.
unfold login_events.
destruct (login client user password None) as [first|e];
  [destruct (String.eqb (status first) "pending" && requires2fa first) |];
  repeat constructor.
Qed.

(** X18: a login that fails never reaches the store.  When the deciding
    login call rejects, or its reply has a status other than ["success"],
    [addGalaxyQuestAccount] is rejected, the store is as it was, and the
    logins are the only calls recorded. *)
Theorem addGalaxyQuestAccount_failed_login (w : World Config) user password :
(exists err, final_login client user password = Rejected err) \/
(exists result,
   final_login client user password = Resolved result /\
   status result <> "success"%string) ->
exists e,
  register user password w =
  (Rejected e,
   append_events w
     (EvLogin user password None ::
      match login client user password None with
      | Resolved result =>
          if String.eqb (status result) "pending" && requires2fa result
          then [EvLogin user password (Some EmptyString)]
          else []
      | Rejected _ => []
      end)).
Proof.
rewrite addGalaxyQuestAccount_run.
intros [[err Hfinal] | [result [Hfinal Hstatus]]]; rewrite Hfinal.
- eexists. reflexivity.
- apply String.eqb_neq in Hstatus. rewrite Hstatus. eexists. reflexivity.
Qed.

(** X19: [addGalaxyQuestAccount] resolves only from a deciding login reply
    whose status is ["success"], and its value is the record the store
    returned for the uuid and the access token of that reply, with the
    username as the display name too. *)
Theorem addGalaxyQuestAccount_resolved (w : World Config) user password acct :
fst (register user password w) = Resolved acct ->
exists result,
  final_login client user password = Resolved result /\
  status result = "success"%string /\
  acct = snd (addGalaxyQuestAuthAccount cm (lr_uuid result) (lr_accessToken result)
                (lr_username result) (lr_username result) (config w)).
Proof.
rewrite addGalaxyQuestAccount_run.
destruct (final_login client user password) as [result|e']; [| discriminate].
destruct (String.eqb (status result) "success") eqn:Hstatus; [| discriminate].
simpl. intros Hrun. injection Hrun as <-.
exists result. apply String.eqb_eq in Hstatus. auto.
Qed.

(** X20: there is one login without a code; a second login follows, with
    the empty string as its code, exactly when the first reply has the
    status ["pending"] and asks for a second factor; there is never a
    third. *)
Theorem addGalaxyQuestAccount_logins (w : World Config) user password :
exists rest,
  trace (snd (register user password w)) =
    trace w ++
    EvLogin user password None ::
    match login client user password None with
    | Resolved result =>
        if String.eqb (status result) "pending" && requires2fa result
        then [EvLogin user password (Some EmptyString)]
        else []
    | Rejected _ => []
    end ++ rest /\
  Forall (fun ev => is_login ev = false) rest.
Proof.
rewrite addGalaxyQuestAccount_run.
change (EvLogin user password None ::
        match login client user password None with
        | Resolved result =>
            if String.eqb (status result) "pending" && requires2fa result
            then [EvLogin user password (Some EmptyString)]
            else []
        | Rejected _ => []
        end) with (login_events client user password).
destruct (final_login client user password) as [result|e'].
- destruct (String.eqb (status result) "success").
  + unfold stored_login. cbn [fst snd append_events config clock trace].
    destruct (getClientToken cm _); cbn [trace]; rewrite <- app_assoc;
      eexists; (split; [reflexivity | repeat constructor]).
  + exists []. cbn [snd append_events trace]. rewrite app_nil_r.
    split; [reflexivity | constructor].
- exists []. cbn [snd append_events trace]. rewrite app_nil_r.
  split; [reflexivity | constructor].
Qed.

(** X21: in a scope that binds [mojangErrorDisplayable] and
    [MojangErrorCode], a login call that rejects ends in the displayable
    error for [UNKNOWN], whatever the reason of the rejection was, and a
    deciding reply whose status is not ["success"] ends in the one for
    [ERROR_INVALID_CREDENTIALS]. *)
Theorem addGalaxyQuestAccount_error_kinds (w : World Config) user password :
scope_mojangErrorDisplayable sc = true ->
scope_MojangErrorCode sc = true ->
match final_login client user password with
| Rejected _ =>
    fst (register user password w) = Rejected (mojangErrorDisplayable MOJANG_UNKNOWN)
| Resolved result =>
    if String.eqb (status result) "success"
    then exists acct, fst (register user password w) = Resolved acct
    else fst (register user password w) =
         Rejected (mojangErrorDisplayable ERROR_INVALID_CREDENTIALS)
end.
Proof.
intros Hfunction Hcodes.
rewrite addGalaxyQuestAccount_run. unfold login_rejection.
rewrite Hfunction, Hcodes.
destruct (final_login client user password) as [result|e']; [| reflexivity].
destruct (String.eqb (status result) "success"); [eexists |]; reflexivity.
Qed.

(** X22: in a scope that does not bind [mojangErrorDisplayable], every
    rejection of [addGalaxyQuestAccount] is the [ReferenceError] for that
    name: a refused login and an unreachable service cannot be told
    apart. *)
Theorem addGalaxyQuestAccount_unbound (w : World Config) user password e :
scope_mojangErrorDisplayable sc = false ->
fst (register user password w) = Rejected e ->
e = ReferenceError "mojangErrorDisplayable".
Proof.
intros Hfunction.
rewrite addGalaxyQuestAccount_run. unfold login_rejection. rewrite Hfunction.
destruct (final_login client user password) as [result|e'];
  [destruct (String.eqb (status result) "success") |];
  simpl; intros Hrun; congruence.
Qed.

(** X23: after a deciding reply with the status ["success"] the account is
    added, the client token is set to the access token of the reply when
    the store holds no client token and is left alone when it holds one,
    and the store is saved once, last. *)
Theorem addGalaxyQuestAccount_stores (w : World Config) user password result :
final_login client user password = Resolved result ->
status result = "success"%string ->
exists logins,
  Forall (fun ev => is_login ev = true) logins /\
  snd (register user password w) =
  match
    getClientToken cm
      (fst (addGalaxyQuestAuthAccount cm (lr_uuid result) (lr_accessToken result)
              (lr_username result) (lr_username result) (config w)))
  with
  | None =>
      {| config :=
           save cm (setClientToken cm (lr_accessToken result)
             (fst (addGalaxyQuestAuthAccount cm (lr_uuid result)
                     (lr_accessToken result) (lr_username result)
                     (lr_username result) (config w))));
         clock := clock w;
         trace := trace w ++ logins ++
           [EvAddGalaxyQuestAuthAccount (lr_uuid result) (lr_accessToken result)
              (lr_username result) (lr_username result);
            EvSetClientToken (lr_accessToken result);
            EvSave] |}
  | Some _ =>
      {| config :=
           save cm (fst (addGalaxyQuestAuthAccount cm (lr_uuid result)
                           (lr_accessToken result) (lr_username result)
                           (lr_username result) (config w)));
         clock := clock w;
         trace := trace w ++ logins ++
           [EvAddGalaxyQuestAuthAccount (lr_uuid result) (lr_accessToken result)
              (lr_username result) (lr_username result);
            EvSave] |}
  end.
Proof.
intros Hfinal Hstatus.
rewrite addGalaxyQuestAccount_run, Hfinal.
apply String.eqb_eq in Hstatus. rewrite Hstatus.
exists (login_events client user password). split.
- eapply Forall_impl; [apply login_events_are_logins |]. intros ev Hev. apply Hev.
- unfold stored_login. cbn [snd append_events config clock trace].
  destruct (getClientToken cm _); rewrite <- app_assoc; reflexivity.
Qed.
End LoginProperties.

(** ** The further properties at work on the example store *)

(** X8 at work: an XSTS endpoint that reports an error, and a profile
    endpoint that answers without a payload. *)
Lemma addMicrosoftAccount_failed_flow_witness :
let cm := StoreManager in
let clientId := client_id in
let w := first_run in
let authCode := "auth-code"%string in
(let api := provider_without_xbox in
 let e := microsoftErrorDisplayable (ProviderCode 3) in
 (fst (fullMicrosoftAuthFlow api clientId authCode FULL w) = Rejected e) /\
 (addMicrosoftAccount cm api clientId authCode w =
  (Rejected e, snd (fullMicrosoftAuthFlow api clientId authCode FULL w)))) /\
(let api := provider_without_profile in
 let res :=
   {| fr_accessToken := Some {| access_token := "ms-access";
                                refresh_token := "ms-refresh";
                                expires_in := 3600 |};
      fr_accessTokenRaw := "ms-access";
      fr_xbl := Some {| xbl_token := "xbl" |};
      fr_xsts := Some {| xsts_token := "xsts" |};
      fr_mcToken := Some {| mc_access_token := "mc-access"; mc_expires_in := 86400 |};
      fr_mcProfile := None |} in
 (fst (fullMicrosoftAuthFlow api clientId authCode FULL w) = Resolved res) /\
 (fr_mcProfile res = None) /\
 (addMicrosoftAccount cm api clientId authCode w =
  (Rejected (TypeError "id"),
   snd (fullMicrosoftAuthFlow api clientId authCode FULL w)))).
Proof.
intros cm clientId w authCode. split.
- intros api e.
  split; [vm_compute; reflexivity |].
  apply (proj1 (addMicrosoftAccount_failed_flow cm api clientId w authCode) e).
  vm_compute; reflexivity.
- intros api res.
  split; [vm_compute; reflexivity |].
  split; [vm_compute; reflexivity |].
  apply (proj1 (proj2 (addMicrosoftAccount_failed_flow cm api clientId w authCode))
           res);
    vm_compute; reflexivity.
Defined.

(** X9 at work: every exchange succeeds. *)
Lemma addMicrosoftAccount_resolved_value_witness :
let cm := StoreManager in
let api := provider 86400 3600 in
let clientId := client_id in
let w := first_run in
let authCode := "auth-code"%string in
let acct := created_account in
(fst (addMicrosoftAccount cm api clientId authCode w) = Resolved acct) /\
(exists res profile token oauth rest,
  fst (fullMicrosoftAuthFlow api clientId authCode FULL w) = Resolved res /\
  fr_mcProfile res = Some profile /\
  fr_mcToken res = Some token /\
  fr_accessToken res = Some oauth /\
  acct = snd (addMicrosoftAuthAccount cm
                (profile_id profile) (mc_access_token token) (profile_name profile)
                (calculateExpiryDate (clock w) (mc_expires_in token))
                (access_token oauth) (refresh_token oauth)
                (calculateExpiryDate (clock w) (expires_in oauth))
                (config w)) /\
  trace (snd (addMicrosoftAccount cm api clientId authCode w)) =
    trace w ++ EvFlow authCode FULL
               :: EvGetAccessToken authCode false clientId :: rest /\
  List.filter is_flow rest = []).
Proof.
intros cm api clientId w authCode acct.
split; [vm_compute; reflexivity |].
apply (addMicrosoftAccount_resolved_value cm api clientId w authCode acct);
  [vm_compute; reflexivity].
Defined.

(** X10 at work: the account that was just created. *)
Lemma validate_free_iff_not_expired_witness :
let cm := StoreManager in
let api := provider 86400 3600 in
let clientId := client_id in
let w := start (store_with created_account) 5000 in
let current := created_account in
(getSelectedAccount cm (config w) = Some current) /\
((validateSelectedMicrosoftAccount cm api clientId w = (Resolved (JsBool true), w) <->
 js_ge (clock w) (expiresAt current) = false)).
Proof.
intros cm api clientId w current.
split; [vm_compute; reflexivity |].
apply (validate_free_iff_not_expired cm api clientId w current);
  [vm_compute; reflexivity].
Defined.

(** X11 at work: an empty store. *)
Lemma validate_without_record_witness :
let cm := StoreManager in
let api := provider 86400 3600 in
let clientId := client_id in
let w := first_run in
(getSelectedAccount cm (config w) = None \/
(exists current,
   getSelectedAccount cm (config w) = Some current /\
   js_ge (clock w) (expiresAt current) = true /\
   microsoft current = None)) /\
(exists property, validateSelectedMicrosoftAccount cm api clientId w = (Rejected (TypeError property), w)).
Proof.
intros cm api clientId w.
split; [left; vm_compute; reflexivity |].
apply (validate_without_record cm api clientId w);
  [left; vm_compute; reflexivity].
Defined.

(** X12 at work: a refresh in mode [MC_REFRESH]. *)
Lemma validate_refresh_tokens_witness :
let cm := StoreManager in
let api := provider 86400 3600 in
let clientId := client_id in
let w := expired_world 9000 in
let current := microsoft_account 1000 9000 in
let ms := stored_state 9000 in
let res := {| fr_accessToken := None;
     fr_accessTokenRaw := "old-ms-access";
     fr_xbl := Some {| xbl_token := "xbl" |};
     fr_xsts := Some {| xsts_token := "xsts" |};
     fr_mcToken := Some {| mc_access_token := "mc-access"; mc_expires_in := 86400 |};
     fr_mcProfile := Some {| profile_id := "player-1"; profile_name := "Player" |} |} in
(getSelectedAccount cm (config w) = Some current) /\
(js_ge (clock w) (expiresAt current) = true) /\
(microsoft current = Some ms) /\
(fst (fullMicrosoftAuthFlow api clientId (refresh_entry (clock w) ms) (refresh_mode (clock w) ms) w)
  = Resolved res) /\
(exists token msExpires mcExpires,
  fr_mcToken res = Some token /\
  if isExpired (clock w) (expires_at ms)
  then
    exists oauth,
      fr_accessToken res = Some oauth /\
      trace (snd (validateSelectedMicrosoftAccount cm api clientId w)) =
        trace (snd (fullMicrosoftAuthFlow api clientId (ms_refresh_token ms) MS_REFRESH w)) ++
        [EvUpdateMicrosoftAuthAccount (uuid current) (mc_access_token token)
           (access_token oauth) (refresh_token oauth) msExpires mcExpires;
         EvSave]
  else
    trace (snd (validateSelectedMicrosoftAccount cm api clientId w)) =
      trace (snd (fullMicrosoftAuthFlow api clientId (ms_access_token ms) MC_REFRESH w)) ++
      [EvUpdateMicrosoftAuthAccount (uuid current) (mc_access_token token)
         (ms_access_token ms) (ms_refresh_token ms) msExpires mcExpires;
       EvSave]).
Proof.
intros cm api clientId w current ms res.
split; [vm_compute; reflexivity |].
split; [vm_compute; reflexivity |].
split; [vm_compute; reflexivity |].
split; [vm_compute; reflexivity |].
apply (validate_refresh_tokens cm api clientId w current ms res);
  [vm_compute; reflexivity | vm_compute; reflexivity | vm_compute; reflexivity | vm_compute; reflexivity].
Defined.

(** X13 at work: a refresh in mode [MC_REFRESH], validated again. *)
Lemma validate_after_refresh_witness :
let cm := StoreManager in
let api := provider 86400 3600 in
let clientId := client_id in
let w := expired_world 9000 in
let current := microsoft_account 1000 9000 in
let ms := stored_state 9000 in
let res := {| fr_accessToken := None;
     fr_accessTokenRaw := "old-ms-access";
     fr_xbl := Some {| xbl_token := "xbl" |};
     fr_xsts := Some {| xsts_token := "xsts" |};
     fr_mcToken := Some {| mc_access_token := "mc-access"; mc_expires_in := 86400 |};
     fr_mcProfile := Some {| profile_id := "player-1"; profile_name := "Player" |} |} in
let token := {| mc_access_token := "mc-access"; mc_expires_in := 86400 |} in
let refreshed := {| type := "microsoft"; uuid := "player-1"; accessToken := "mc-access";
     username := "Player"; displayName := "Player";
     expiresAt := Some 86395000;
     microsoft := Some (stored_state 9000) |} in
(getSelectedAccount cm (config w) = Some current) /\
(js_ge (clock w) (expiresAt current) = true) /\
(microsoft current = Some ms) /\
(fst (fullMicrosoftAuthFlow api clientId (refresh_entry (clock w) ms) (refresh_mode (clock w) ms) w)
  = Resolved res) /\
(fr_mcToken res = Some token) /\
(getSelectedAccount cm (config (snd (validateSelectedMicrosoftAccount cm api clientId w))) = Some refreshed) /\
(expiresAt refreshed = Some (calculateExpiryDate (clock w) (mc_expires_in token))) /\
(marginSeconds < mc_expires_in token) /\
(fst (validateSelectedMicrosoftAccount cm api clientId w) = Resolved (JsBool true) /\
validateSelectedMicrosoftAccount cm api clientId (snd (validateSelectedMicrosoftAccount cm api clientId w)) = (Resolved (JsBool true), snd (validateSelectedMicrosoftAccount cm api clientId w))).
Proof.
intros cm api clientId w current ms res token refreshed.
split; [vm_compute; reflexivity |].
split; [vm_compute; reflexivity |].
split; [vm_compute; reflexivity |].
split; [vm_compute; reflexivity |].
split; [vm_compute; reflexivity |].
split; [vm_compute; reflexivity |].
split; [vm_compute; reflexivity |].
split; [vm_compute; reflexivity |].
apply (validate_after_refresh cm api clientId w current ms res token refreshed);
  [vm_compute; reflexivity | vm_compute; reflexivity | vm_compute; reflexivity | vm_compute; reflexivity | vm_compute; reflexivity | vm_compute; reflexivity | vm_compute; reflexivity | vm_compute; reflexivity].
Defined.

(** X14 at work. *)
Lemma validateSelectedMojangAccount_valid_witness :
let cm := StoreManager in
let sc := scope_with_mojang valid_mojang in
let w := password_world in
let mojang := valid_mojang in
let current := password_account in
let response := {| mj_responseStatus := SUCCESS; mj_data := Some true |} in
(scope_MojangRestAPI sc = Some mojang) /\
(getSelectedAccount cm (config w) = Some current) /\
(validate mojang (accessToken current) (getClientToken cm (config w))
  = Resolved response) /\
(mj_responseStatus response = SUCCESS) /\
(mj_data response = Some true) /\
(validateSelectedMojangAccount cm sc w =
(Resolved (JsBool true),
 append_events w [EvValidate (accessToken current) (getClientToken cm (config w))])).
Proof.
intros cm sc w mojang current response.
split; [vm_compute; reflexivity |].
split; [vm_compute; reflexivity |].
split; [vm_compute; reflexivity |].
split; [vm_compute; reflexivity |].
split; [vm_compute; reflexivity |].
apply (validateSelectedMojangAccount_valid cm sc w mojang current response);
  [vm_compute; reflexivity | vm_compute; reflexivity | vm_compute; reflexivity | vm_compute; reflexivity | vm_compute; reflexivity].
Defined.

(** X15 at work. *)
Lemma validateSelectedMojangAccount_refreshed_witness :
let cm := StoreManager in
let sc := scope_with_mojang refreshing_mojang in
let w := password_world in
let mojang := refreshing_mojang in
let current := password_account in
let response := {| mj_responseStatus := SUCCESS; mj_data := Some false |} in
let session := {| session_accessToken := "fresh-token" |} in
let refreshed := {| mj_responseStatus := SUCCESS; mj_data := Some session |} in
(scope_MojangRestAPI sc = Some mojang) /\
(getSelectedAccount cm (config w) = Some current) /\
(validate mojang (accessToken current) (getClientToken cm (config w))
  = Resolved response) /\
(mj_responseStatus response = SUCCESS) /\
(mj_data response <> Some true) /\
(refresh mojang (accessToken current) (getClientToken cm (config w))
  = Resolved refreshed) /\
(mj_responseStatus refreshed = SUCCESS) /\
(mj_data refreshed = Some session) /\
(validateSelectedMojangAccount cm sc w =
(Resolved (JsBool true),
 {| config := save cm (updateMojangAuthAccount cm (uuid current)
                         (session_accessToken session) (config w));
    clock := clock w;
    trace := trace w ++
      [EvValidate (accessToken current) (getClientToken cm (config w));
       EvRefresh (accessToken current) (getClientToken cm (config w));
       EvUpdateMojangAuthAccount (uuid current) (session_accessToken session);
       EvSave] |})).
Proof.
intros cm sc w mojang current response session refreshed.
split; [vm_compute; reflexivity |].
split; [vm_compute; reflexivity |].
split; [vm_compute; reflexivity |].
split; [vm_compute; reflexivity |].
split; [discriminate |].
split; [vm_compute; reflexivity |].
split; [vm_compute; reflexivity |].
split; [vm_compute; reflexivity |].
apply (validateSelectedMojangAccount_refreshed cm sc w mojang current response refreshed session);
  [vm_compute; reflexivity | vm_compute; reflexivity | vm_compute; reflexivity | vm_compute; reflexivity | discriminate | vm_compute; reflexivity | vm_compute; reflexivity | vm_compute; reflexivity].
Defined.

(** X16 at work. *)
Lemma validateSelectedMojangAccount_refused_witness :
let cm := StoreManager in
let sc := scope_with_mojang expired_mojang in
let w := password_world in
let mojang := expired_mojang in
let current := password_account in
let response := {| mj_responseStatus := SUCCESS; mj_data := Some false |} in
let refreshed := {| mj_responseStatus := ERROR; mj_data := @None Session |} in
(scope_MojangRestAPI sc = Some mojang) /\
(getSelectedAccount cm (config w) = Some current) /\
(validate mojang (accessToken current) (getClientToken cm (config w))
  = Resolved response) /\
(mj_responseStatus response = SUCCESS) /\
(mj_data response <> Some true) /\
(refresh mojang (accessToken current) (getClientToken cm (config w))
  = Resolved refreshed) /\
(mj_responseStatus refreshed <> SUCCESS) /\
(validateSelectedMojangAccount cm sc w =
(Resolved (JsBool false),
 append_events w
   [EvValidate (accessToken current) (getClientToken cm (config w));
    EvRefresh (accessToken current) (getClientToken cm (config w))])).
Proof.
intros cm sc w mojang current response refreshed.
split; [vm_compute; reflexivity |].
split; [vm_compute; reflexivity |].
split; [vm_compute; reflexivity |].
split; [vm_compute; reflexivity |].
split; [discriminate |].
split; [vm_compute; reflexivity |].
split; [discriminate |].
apply (validateSelectedMojangAccount_refused cm sc w mojang current response refreshed);
  [vm_compute; reflexivity | vm_compute; reflexivity | vm_compute; reflexivity | vm_compute; reflexivity | discriminate | vm_compute; reflexivity | discriminate].
Defined.

(** X17 at work: the validate call rejects. *)
Lemma validateSelectedMojangAccount_rejections_witness :
let cm := StoreManager in
let sc := scope_with_mojang faulty_mojang in
let w := password_world in
let mojang := faulty_mojang in
let current := password_account in
let e := CollaboratorFault "network" in
(scope_MojangRestAPI sc = Some mojang) /\
(getSelectedAccount cm (config w) = Some current) /\
(validate mojang (accessToken current) (getClientToken cm (config w)) = Rejected e \/
(exists response,
   validate mojang (accessToken current) (getClientToken cm (config w))
     = Resolved response /\
   mj_responseStatus response = SUCCESS /\
   mj_data response <> Some true /\
   refresh mojang (accessToken current) (getClientToken cm (config w))
     = Rejected e)) /\
(exists calls,
  validateSelectedMojangAccount cm sc w = (Rejected e, append_events w calls) /\
  Forall (fun ev => is_store_write ev = false) calls).
Proof.
intros cm sc w mojang current e.
split; [vm_compute; reflexivity |].
split; [vm_compute; reflexivity |].
split; [left; vm_compute; reflexivity |].
apply (validateSelectedMojangAccount_rejections cm sc w mojang current e);
  [vm_compute; reflexivity | vm_compute; reflexivity | left; vm_compute; reflexivity].
Defined.

(** X18 at work: a refused login. *)
Lemma addGalaxyQuestAccount_failed_login_witness :
let cm := StoreManager in
let client := refusing_client in
let sc := module_scope Store in
let w := first_run in
let user := "alice"%string in
let password := "wrong"%string in
((exists err, final_login client user password = Rejected err) \/
 (exists result,
    final_login client user password = Resolved result /\
    status result <> "success"%string)) /\
(exists e,
  addGalaxyQuestAccount cm client sc user password w =
  (Rejected e,
   append_events w
     (EvLogin user password None ::
      match login client user password None with
      | Resolved result =>
          if String.eqb (status result) "pending" && requires2fa result
          then [EvLogin user password (Some EmptyString)]
          else []
      | Rejected _ => []
      end))).
Proof.
intros cm client sc w user password.
assert (Hfailed :
  (exists err, final_login client user password = Rejected err) \/
  (exists result,
     final_login client user password = Resolved result /\
     status result <> "success"%string)).
{ right. exists error_result. split; [vm_compute; reflexivity | discriminate]. }
split; [exact Hfailed |].
apply (addGalaxyQuestAccount_failed_login cm client sc w user password).
exact Hfailed.
Defined.

(** X19 at work: an accepted login. *)
Lemma addGalaxyQuestAccount_resolved_witness :
let cm := StoreManager in
let client := accepting_client in
let sc := module_scope Store in
let w := first_run in
let user := "alice"%string in
let password := "secret"%string in
let acct := password_account in
(fst (addGalaxyQuestAccount cm client sc user password w) = Resolved acct) /\
(exists result,
  final_login client user password = Resolved result /\
  status result = "success"%string /\
  acct = snd (addGalaxyQuestAuthAccount cm (lr_uuid result) (lr_accessToken result)
                (lr_username result) (lr_username result) (config w))).
Proof.
intros cm client sc w user password acct.
split; [vm_compute; reflexivity |].
apply (addGalaxyQuestAccount_resolved cm client sc w user password acct);
  [vm_compute; reflexivity].
Defined.

(** X21 at work: a refused login. *)
Lemma addGalaxyQuestAccount_error_kinds_witness :
let cm := StoreManager in
let client := refusing_client in
let sc := scope_with_mojang_errors in
let w := first_run in
let user := "alice"%string in
let password := "wrong"%string in
(scope_mojangErrorDisplayable sc = true) /\
(scope_MojangErrorCode sc = true) /\
(match final_login client user password with
| Rejected _ =>
    fst (addGalaxyQuestAccount cm client sc user password w) = Rejected (mojangErrorDisplayable MOJANG_UNKNOWN)
| Resolved result =>
    if String.eqb (status result) "success"
    then exists acct, fst (addGalaxyQuestAccount cm client sc user password w) = Resolved acct
    else fst (addGalaxyQuestAccount cm client sc user password w) =
         Rejected (mojangErrorDisplayable ERROR_INVALID_CREDENTIALS)
end).
Proof.
intros cm client sc w user password.
split; [vm_compute; reflexivity |].
split; [vm_compute; reflexivity |].
apply (addGalaxyQuestAccount_error_kinds cm client sc w user password);
  [vm_compute; reflexivity | vm_compute; reflexivity].
Defined.

(** X22 at work: an unreachable login service. *)
Lemma addGalaxyQuestAccount_unbound_witness :
let cm := StoreManager in
let client := faulty_client in
let sc := module_scope Store in
let w := first_run in
let user := "alice"%string in
let password := "secret"%string in
let e := ReferenceError "mojangErrorDisplayable" in
(scope_mojangErrorDisplayable sc = false) /\
(fst (addGalaxyQuestAccount cm client sc user password w) = Rejected e) /\
(e = ReferenceError "mojangErrorDisplayable").
Proof.
intros cm client sc w user password e.
split; [vm_compute; reflexivity |].
split; [vm_compute; reflexivity |].
apply (addGalaxyQuestAccount_unbound cm client sc w user password e);
  [vm_compute; reflexivity | vm_compute; reflexivity].
Defined.

(** X23 at work: an accepted login on a store without client token. *)
Lemma addGalaxyQuestAccount_stores_witness :
let cm := StoreManager in
let client := accepting_client in
let sc := module_scope Store in
let w := first_run in
let user := "alice"%string in
let password := "secret"%string in
let result := success_result in
(final_login client user password = Resolved result) /\
(status result = "success"%string) /\
(exists logins,
  Forall (fun ev => is_login ev = true) logins /\
  snd (addGalaxyQuestAccount cm client sc user password w) =
  match
    getClientToken cm
      (fst (addGalaxyQuestAuthAccount cm (lr_uuid result) (lr_accessToken result)
              (lr_username result) (lr_username result) (config w)))
  with
  | None =>
      {| config :=
           save cm (setClientToken cm (lr_accessToken result)
             (fst (addGalaxyQuestAuthAccount cm (lr_uuid result)
                     (lr_accessToken result) (lr_username result)
                     (lr_username result) (config w))));
         clock := clock w;
         trace := trace w ++ logins ++
           [EvAddGalaxyQuestAuthAccount (lr_uuid result) (lr_accessToken result)
              (lr_username result) (lr_username result);
            EvSetClientToken (lr_accessToken result);
            EvSave] |}
  | Some _ =>
      {| config :=
           save cm (fst (addGalaxyQuestAuthAccount cm (lr_uuid result)
                           (lr_accessToken result) (lr_username result)
                           (lr_username result) (config w)));
         clock := clock w;
         trace := trace w ++ logins ++
           [EvAddGalaxyQuestAuthAccount (lr_uuid result) (lr_accessToken result)
              (lr_username result) (lr_username result);
            EvSave] |}
  end).
Proof.
intros cm client sc w user password result.
split; [vm_compute; reflexivity |].
split; [vm_compute; reflexivity |].
apply (addGalaxyQuestAccount_stores cm client sc w user password result);
  [vm_compute; reflexivity | vm_compute; reflexivity].
Defined.
